(** * Eventify backend: booking validation, venue requests, reviews, sessions

    A shallow embedding of the route handlers of [src/index.js], the
    authentication middleware of [middleware/auth] and the [pre("save")] hook
    of the Event model, followed by the properties the specification states
    about them and by further properties of the same handlers, of the
    listings and of the venue routes.

    JavaScript numbers are IEEE 754 binary64 values, so they are embedded as
    primitive floats.  Request bodies and the [eventData] object are finite
    maps from property names to JavaScript values.  Collections of the
    document store are lists of documents, looked up by [_id].  Handlers
    run in a small monad with three outcomes: control continues, a response
    has been sent, or an exception has been thrown. *)

From Stdlib Require Import ZArith List String Ascii Bool Lia Floats.
From Stdlib Require Import Sorting.Sorted.
From stdpp Require Import gmap strings pretty.
Import ListNotations.

Local Open Scope string_scope.
Local Open Scope Z_scope.

(** ** JavaScript values *)

Definition ObjectId := string.

(** The values a parsed request body, or an object built from one, holds in
    this program: the JSON primitives, arrays of strings (uploaded file
    paths) and ObjectIds. *)
Inductive JsVal : Type :=
| VUndef
| VNull
| VBool (b : bool)
| VNum (x : float)
| VStr (s : string)
| VArr (xs : list string)
| VId (i : ObjectId).

Abbreviation JsObject := (gmap string JsVal).

(** [obj[key]]: a property that is not there reads as [undefined]. *)
Definition prop (obj : JsObject) (key : string) : JsVal :=
  default VUndef (obj !! key).

(** A time claim of a token's payload ([nbf], [exp]): not there, a number
    of seconds, or a value that is not a number.  The clock it is compared
    with is a whole number of seconds, so a fractional claim compares as the
    next whole number does. *)
Inductive NumericDate : Type :=
| NoDate
| Seconds (seconds : Z)
| NotANumber.

(** The claims the service reads from a token's payload.  [jwt.sign]
    receives [{ userId, role }] and adds the issue and expiry times, in
    seconds; a token from elsewhere may also say when it becomes valid. *)
Record JwtPayload : Type := {
  claim_userId : JsVal;
  claim_role : JsVal;
  claim_iat : Z;
  claim_nbf : NumericDate;
  claim_exp : NumericDate;
}.

(** What the program takes from the language runtime and from its libraries
    (ECMAScript conversions, bson, bcryptjs, jsonwebtoken).  None of it is
    code of the repository; the handlers are stated for every runtime. *)
Class Runtime : Type := {
  (** [Number(s)] on a string. *)
  StringToNumber : string -> float;
  (** [String(x)] on a number, as a template literal renders it. *)
  NumberToString : float -> string;
  (** The ObjectId a string denotes, if it denotes one. *)
  objectIdOfString : string -> option ObjectId;
  (** Mongoose's cast of a value to a Date, in milliseconds. *)
  dateOfValue : JsVal -> option Z;
  (** [bcrypt.hash(password, 10)]; the second argument is the salt drawn. *)
  bcrypt_hash : string -> string -> string;
  (** [bcrypt.compare(password, hash)]. *)
  bcrypt_compare : string -> string -> bool;
  (** The compact serialisation [jwt.sign] returns for a payload and secret. *)
  jwt_encode : JwtPayload -> string -> string;
  (** The payload of a token that decodes. *)
  jwt_decode : string -> option JwtPayload;
  (** For a token that yields no payload, whether decoding it throws: [jws]
      hands the payload of a token whose header says [typ: "JWT"] to
      [JSON.parse] outside any [try], and [jwt.verify] rethrows the
      [SyntaxError]. *)
  jwt_payload_unparsable : string -> bool;
  (** Whether the token's signature is the one the secret produces. *)
  jwt_signed_with : string -> string -> bool;
}.

Section Conversions.
Context {RT : Runtime}.

(** [String(v)] *)
Definition ToString (v : JsVal) : string :=
  match v with
  | VUndef => "undefined"
  | VNull => "null"
  | VBool true => "true"
  | VBool false => "false"
  | VNum x => NumberToString x
  | VStr s => s
  | VArr xs => String.concat "," xs
  | VId i => i
  end.

(** [Number(v)] *)
Definition ToNumber (v : JsVal) : float :=
  match v with
  | VUndef => PrimFloat.nan
  | VNull => PrimFloat.zero
  | VBool true => PrimFloat.one
  | VBool false => PrimFloat.zero
  | VNum x => x
  | VStr s => StringToNumber s
  | VArr xs => StringToNumber (String.concat "," xs)
  | VId i => StringToNumber i
  end.

End Conversions.

(** [!v] is [negb (truthy v)]. *)
Definition truthy (v : JsVal) : bool :=
  match v with
  | VUndef | VNull => false
  | VBool b => b
  | VNum x => negb (PrimFloat.is_zero x || PrimFloat.is_nan x)
  | VStr s => negb (String.eqb s "")
  | VArr _ | VId _ => true
  end.

(** [a > b] and [a < b] on numbers. *)
Definition js_gt (a b : float) : bool := PrimFloat.ltb b a.
Definition js_lt (a b : float) : bool := PrimFloat.ltb a b.

(** [v === "s"] *)
Definition strict_eq_str (v : JsVal) (s : string) : bool :=
  match v with
  | VStr t => String.eqb t s
  | _ => false
  end.

(** [s.split(sep)] for a one-character separator. *)
Fixpoint split_on (sep : ascii) (s : string) : list string :=
  match s with
  | EmptyString => [EmptyString]
  | String c rest =>
      if Ascii.eqb c sep then EmptyString :: split_on sep rest
      else match split_on sep rest with
           | [] => [String c EmptyString]
           | hd :: tl => String c hd :: tl
           end
  end.

(** [xs.length] as a number. *)
Definition length_number {A} (xs : list A) : float :=
  PrimFloat.of_uint63 (Uint63.of_Z (Z.of_nat (length xs))).

(** ** Documents *)

(** A review's [rating] path: a number, [null], or not set. *)
Inductive Rating : Type :=
| NoRating
| NullRating
| Rated (x : float).

(** The operand [review.rating] contributes to [sum + review.rating]. *)
Definition ratingOperand (r : Rating) : float :=
  match r with
  | NoRating => PrimFloat.nan
  | NullRating => PrimFloat.zero
  | Rated x => x
  end.

Record Review : Type := {
  rev_user : ObjectId;
  rev_rating : Rating;
  rev_comment : option string;
  rev_date : Z;
}.

Record Venue : Type := {
  venue_id : ObjectId;
  venue_owner : ObjectId;
  venue_name : string;
  venue_address : string;
  venue_capacity : float;
  venue_pricePerDay : float;
  venue_amenities : list string;
  venue_images : list string;
  venue_description : option string;
  venue_availability : bool;
  venue_rating : float;
  venue_reviews : list Review;
}.

Record VenueRequest : Type := {
  vr_status : option string;
  vr_message : option string;
  vr_response : option string;
  vr_requestedAt : Z;
  vr_respondedAt : option Z;
}.

Record Event : Type := {
  event_id : ObjectId;
  event_organizer : ObjectId;
  event_venue : ObjectId;
  event_title : string;
  event_description : string;
  event_eventDate : Z;
  event_eventTime : string;
  event_expectedAttendees : float;
  event_status : option string;
  event_price : float;
  event_requirements : list string;
  event_images : list string;
  event_category : string;
  event_attendees : list ObjectId;
  event_reviews : list Review;
  event_venueRequest : VenueRequest;
  event_budget : float;
}.

(** [venueDetails] and [organizationDetails] of the User schema are never
    read or written by a route and are left out. *)
Record User : Type := {
  user_id : ObjectId;
  user_name : option string;
  user_email : option string;
  user_password : option string;
  user_role : string;
  user_venues : list ObjectId;
}.

(** The three collections of the document store. *)
Record Store : Type := {
  users : list User;
  venues : list Venue;
  events : list Event;
}.

(** The assignments the handlers make to a loaded document. *)
Definition set_event_status (e : Event) (s : option string) : Event :=
  {| event_id := event_id e; event_organizer := event_organizer e;
     event_venue := event_venue e; event_title := event_title e;
     event_description := event_description e;
     event_eventDate := event_eventDate e; event_eventTime := event_eventTime e;
     event_expectedAttendees := event_expectedAttendees e;
     event_status := s;
     event_price := event_price e; event_requirements := event_requirements e;
     event_images := event_images e; event_category := event_category e;
     event_attendees := event_attendees e; event_reviews := event_reviews e;
     event_venueRequest := event_venueRequest e;
     event_budget := event_budget e |}.

Definition set_event_venueRequest (e : Event) (r : VenueRequest) : Event :=
  {| event_id := event_id e; event_organizer := event_organizer e;
     event_venue := event_venue e; event_title := event_title e;
     event_description := event_description e;
     event_eventDate := event_eventDate e; event_eventTime := event_eventTime e;
     event_expectedAttendees := event_expectedAttendees e;
     event_status := event_status e;
     event_price := event_price e; event_requirements := event_requirements e;
     event_images := event_images e; event_category := event_category e;
     event_attendees := event_attendees e; event_reviews := event_reviews e;
     event_venueRequest := r;
     event_budget := event_budget e |}.

Definition set_event_reviews (e : Event) (rs : list Review) : Event :=
  {| event_id := event_id e; event_organizer := event_organizer e;
     event_venue := event_venue e; event_title := event_title e;
     event_description := event_description e;
     event_eventDate := event_eventDate e; event_eventTime := event_eventTime e;
     event_expectedAttendees := event_expectedAttendees e;
     event_status := event_status e;
     event_price := event_price e; event_requirements := event_requirements e;
     event_images := event_images e; event_category := event_category e;
     event_attendees := event_attendees e; event_reviews := rs;
     event_venueRequest := event_venueRequest e;
     event_budget := event_budget e |}.

Definition set_venue_reviews_rating (v : Venue) (rs : list Review) (r : float)
  : Venue :=
  {| venue_id := venue_id v; venue_owner := venue_owner v;
     venue_name := venue_name v; venue_address := venue_address v;
     venue_capacity := venue_capacity v;
     venue_pricePerDay := venue_pricePerDay v;
     venue_amenities := venue_amenities v; venue_images := venue_images v;
     venue_description := venue_description v;
     venue_availability := venue_availability v;
     venue_rating := r; venue_reviews := rs |}.

Definition without_password (u : User) : User :=
  {| user_id := user_id u; user_name := user_name u;
     user_email := user_email u; user_password := None;
     user_role := user_role u; user_venues := user_venues u |}.

Definition set_users (st : Store) (us : list User) : Store :=
  {| users := us; venues := venues st; events := events st |}.
Definition set_venues (st : Store) (vs : list Venue) : Store :=
  {| users := users st; venues := vs; events := events st |}.
Definition set_events (st : Store) (es : list Event) : Store :=
  {| users := users st; venues := venues st; events := es |}.

(** ** Exceptions, responses and control flow *)

(** What a [catch] clause of this program can observe of an exception: its
    [name], and for [new Error(message)] thrown by the hook its message. *)
Inductive Exn : Type :=
| JsError (message : string)
| TypeError
| CastError (path : string)
| ValidationError (model : string)
| BcryptError
| JsonWebTokenError (message : string)
| NotBeforeError
| TokenExpiredError
| SyntaxError.

Definition exn_name (e : Exn) : string :=
  match e with
  | JsError _ | BcryptError => "Error"
  | TypeError => "TypeError"
  | CastError _ => "CastError"
  | ValidationError _ => "ValidationError"
  | JsonWebTokenError _ => "JsonWebTokenError"
  | NotBeforeError => "NotBeforeError"
  | TokenExpiredError => "TokenExpiredError"
  | SyntaxError => "SyntaxError"
  end.

(** The [details] member of an error body: a string the handler builds, or
    [error.message] of the exception caught. *)
Inductive Detail : Type :=
| Text (s : string)
| MessageOf (e : Exn).

Inductive Json : Type :=
| ErrorJson (error : string) (details : option Detail)
| EventJson (e : Event)
| SuccessEventJson (e : Event)
| VenueJson (v : Venue)
| SessionJson (token : string) (user : User).

Record Response : Type := {
  status : Z;
  body : Json;
}.

Definition json (code : Z) (b : Json) : Response :=
  {| status := code; body := b |}.

(** The outcome of a sequence of statements inside a handler. *)
Inductive Flow (A : Type) : Type :=
| Next (a : A)
| Send (r : Response)
| Throw (e : Exn).
Arguments Next {A} a.
Arguments Send {A} r.
Arguments Throw {A} e.

#[global] Instance Flow_ret : MRet Flow := fun A a => Next a.
#[global] Instance Flow_bind : MBind Flow := fun A B f m =>
  match m with
  | Next a => f a
  | Send r => Send r
  | Throw e => Throw e
  end.

(** [try { m } catch (error) { h error }] around the whole handler: the
    handlers write to the store in their last awaited statement only, so an
    exception leaves the store as it was. *)
Definition handle (st : Store) (m : Flow (Response * Store))
  (h : Exn -> Response) : Response * Store :=
  match m with
  | Next rs => rs
  | Send r => (r, st)
  | Throw e => (h e, st)
  end.

(** ** Mongoose: casting, validation, queries *)

(** The result of casting a value to a schema type: [null] and [undefined]
    pass through unchanged, anything else is converted or refused. *)
Inductive Cast (A : Type) : Type :=
| Value (a : A)
| CastNull
| CastUndefined
| CastFailed.
Arguments Value {A} a.
Arguments CastNull {A}.
Arguments CastUndefined {A}.
Arguments CastFailed {A}.

(** A path declared [required: true] must hold a value. *)
Definition required {A} (c : Cast A) : option A :=
  match c with
  | Value a => Some a
  | _ => None
  end.

(** A path that is not required: [null] and [undefined] are both stored as
    no value; a failed cast invalidates the document. *)
Definition optional {A} (c : Cast A) : option (option A) :=
  match c with
  | Value a => Some (Some a)
  | CastNull | CastUndefined => Some None
  | CastFailed => None
  end.

Definition eqb_id (a b : ObjectId) : bool := String.eqb a b.

Section Mongoose.
Context {RT : Runtime}.

Definition castNumber (v : JsVal) : Cast float :=
  match v with
  | VUndef => CastUndefined
  | VNull => CastNull
  | VStr "" => CastNull
  | VArr _ => CastFailed
  | _ => let x := ToNumber v in
         if PrimFloat.is_nan x then CastFailed else Value x
  end.

Definition castString (v : JsVal) : Cast string :=
  match v with
  | VUndef => CastUndefined
  | VNull => CastNull
  | VArr _ => CastFailed
  | _ => Value (ToString v)
  end.

Definition castObjectId (v : JsVal) : Cast ObjectId :=
  match v with
  | VUndef => CastUndefined
  | VNull => CastNull
  | VId i => Value i
  | _ => match objectIdOfString (ToString v) with
         | Some i => Value i
         | None => CastFailed
         end
  end.

Definition castDate (v : JsVal) : Cast Z :=
  match v with
  | VUndef => CastUndefined
  | VNull => CastNull
  | _ => match dateOfValue v with
         | Some d => Value d
         | None => CastFailed
         end
  end.

(** A path of type [[String]]: an array is kept, a single value is wrapped. *)
Definition castStrings (v : JsVal) : option (list string) :=
  match v with
  | VUndef | VNull => Some []
  | VArr xs => Some xs
  | _ => Some [ToString v]
  end.

(** [Model.findById(id)]: the id is cast first, and a value that is no
    ObjectId makes the query throw; [null] and [undefined] match nothing.
    An array is cast like any other value, through its string; a query
    filter would turn it into [$in] over its elements, which the
    properties, stated for ids that are strings or ObjectIds, leave out. *)
Definition findById {D} (id_of : D -> ObjectId) (coll : list D) (id : JsVal)
  : Flow (option D) :=
  match castObjectId id with
  | Value i => Next (find (fun d => eqb_id (id_of d) i) coll)
  | CastNull | CastUndefined => Next None
  | CastFailed => Throw (CastError "_id")
  end.

(** [UserModel.findOne({ email })]: the filter value is cast to the path's
    type; [null] and [undefined] match the documents that hold no email.
    An array, which a query filter would turn into [$in] over its
    elements, is refused here as the path's cast refuses it. *)
Definition findOneByEmail (coll : list User) (email : JsVal)
  : Flow (option User) :=
  match castString email with
  | Value s =>
      Next (find (fun u => match user_email u with
                           | Some e => String.eqb e s
                           | None => false
                           end) coll)
  | CastNull | CastUndefined =>
      Next (find (fun u => match user_email u with
                           | Some _ => false
                           | None => true
                           end) coll)
  | CastFailed => Throw (CastError "email")
  end.

(** The write of [doc.save()] on a loaded document, and of a new one. *)
Definition updateById {D} (id_of : D -> ObjectId) (coll : list D) (d : D)
  : list D :=
  map (fun x => if eqb_id (id_of x) (id_of d) then d else x) coll.

Definition insertOne {D} (coll : list D) (d : D) : list D :=
  (coll ++ [d])%list.

End Mongoose.

(** *** Schema validators *)

Definition nonEmpty (s : string) : bool := negb (String.eqb s "").

Definition inEnum (values : list string) (s : string) : bool :=
  existsb (String.eqb s) values.

(** [enum] on a path that is not required accepts a missing value. *)
Definition enumOrUnset (values : list string) (o : option string) : bool :=
  match o with
  | Some s => inEnum values s
  | None => true
  end.

Definition eventStatusEnum : list string :=
  ["pending"; "approved"; "rejected"; "completed"; "cancelled"].
Definition categoryEnum : list string :=
  ["Conference"; "Workshop"; "Seminar"; "Party"; "Wedding"; "Other"].
Definition venueRequestStatusEnum : list string :=
  ["pending"; "approved"; "rejected"].
Definition roleEnum : list string := ["user"; "organizer"; "venue_owner"].

(** [eventSchema]: the [required], [min] and [enum] validators. *)
Definition validateEvent (e : Event) : bool :=
  nonEmpty (event_title e) && nonEmpty (event_description e)
  && nonEmpty (event_eventTime e)
  && PrimFloat.leb PrimFloat.one (event_expectedAttendees e)
  && enumOrUnset eventStatusEnum (event_status e)
  && PrimFloat.leb PrimFloat.zero (event_price e)
  && nonEmpty (event_category e) && inEnum categoryEnum (event_category e)
  && enumOrUnset venueRequestStatusEnum (vr_status (event_venueRequest e)).

(** [venueSchema]: [name] and [address] are required strings. *)
Definition validateVenue (v : Venue) : bool :=
  nonEmpty (venue_name v) && nonEmpty (venue_address v).

(** [UserSchema]: [role] is required and enumerated. *)
Definition validateUser (u : User) : bool :=
  nonEmpty (user_role u) && inEnum roleEnum (user_role u).

(** ** The Event model's [pre("save")] hook and [save] *)

Section Models.
Context {RT : Runtime}.

(** [eventSchema.pre("save", ...)]: the hook looks the venue up again and
    re-checks availability, capacity and budget; an error it throws is
    handed to [next] and rejects the save. *)
Definition preSave (st : Store) (this : Event) : Flow unit :=
  venue ← findById venue_id (venues st) (VId (event_venue this));
  match venue with
  | None => Throw (JsError "Venue not found")
  | Some venue =>
      if negb (venue_availability venue) then
        Throw (JsError "Venue is not available")
      else if js_gt (event_expectedAttendees this) (venue_capacity venue) then
        Throw (JsError
          ("Expected attendees ("
           +:+ NumberToString (event_expectedAttendees this)
           +:+ ") exceed venue capacity ("
           +:+ NumberToString (venue_capacity venue) +:+ ")"))
      else
        let eventDuration := PrimFloat.one in
        let venueCost :=
          PrimFloat.mul (venue_pricePerDay venue) eventDuration in
        if js_lt (event_budget this) venueCost then
          Throw (JsError
            ("Budget (" +:+ NumberToString (event_budget this)
             +:+ ") is insufficient for venue cost ("
             +:+ NumberToString venueCost +:+ ")"))
        else Next ()
  end.

(** [event.save()] on a loaded document: the schema validators run first,
    then the hook, then the write.  [castOk] is false when an assignment
    made before the save could not be cast to its path's type. *)
Definition saveEvent (st : Store) (castOk : bool) (e : Event) : Flow Store :=
  if castOk && validateEvent e then
    _ ← preSave st e;
    Next (set_events st (updateById event_id (events st) e))
  else Throw (ValidationError "Event").

Definition saveVenue (st : Store) (castOk : bool) (v : Venue) : Flow Store :=
  if castOk && validateVenue v then
    Next (set_venues st (updateById venue_id (venues st) v))
  else Throw (ValidationError "Venue").

(** [new EventModel(eventData)]: every schema path is cast from the property
    of the same name; a required path that holds no value, or a cast that
    fails, invalidates the document.  The bodies modelled carry no nested
    objects, so [attendees], [reviews] and [venueRequest] start at their
    schema defaults. *)
Definition newEvent (eventData : JsObject) (id : ObjectId) (now : Z)
  : option Event :=
  organizer ← required (castObjectId (prop eventData "organizer"));
  venue ← required (castObjectId (prop eventData "venue"));
  title ← required (castString (prop eventData "title"));
  description ← required (castString (prop eventData "description"));
  eventDate ← required (castDate (prop eventData "eventDate"));
  eventTime ← required (castString (prop eventData "eventTime"));
  expectedAttendees ←
    required (castNumber (prop eventData "expectedAttendees"));
  status ← match castString (prop eventData "status") with
           | CastUndefined => Some (Some "pending")
           | c => optional c
           end;
  price ← required (castNumber (prop eventData "price"));
  requirements ← castStrings (prop eventData "requirements");
  images ← castStrings (prop eventData "images");
  category ← required (castString (prop eventData "category"));
  budget ← required (castNumber (prop eventData "budget"));
  Some {| event_id := id; event_organizer := organizer; event_venue := venue;
          event_title := title; event_description := description;
          event_eventDate := eventDate; event_eventTime := eventTime;
          event_expectedAttendees := expectedAttendees;
          event_status := status; event_price := price;
          event_requirements := requirements; event_images := images;
          event_category := category; event_attendees := [];
          event_reviews := [];
          event_venueRequest :=
            {| vr_status := Some "pending"; vr_message := None;
               vr_response := None; vr_requestedAt := now;
               vr_respondedAt := None |};
          event_budget := budget |}.

(** [EventModel.create(eventData)]: construct, validate, run the hook,
    insert. *)
Definition createEventDoc (st : Store) (eventData : JsObject)
  (id : ObjectId) (now : Z) : Flow (Event * Store) :=
  match newEvent eventData id now with
  | None => Throw (ValidationError "Event")
  | Some e =>
      if validateEvent e then
        _ ← preSave st e;
        Next (e, set_events st (insertOne (events st) e))
      else Throw (ValidationError "Event")
  end.

(** [new UserModel({ name, email, password: hashedPassword, role })] *)
Definition newUser (name email role : JsVal) (hashedPassword : string)
  (id : ObjectId) : option User :=
  name ← optional (castString name);
  email ← optional (castString email);
  role ← required (castString role);
  Some {| user_id := id; user_name := name; user_email := email;
          user_password := Some hashedPassword; user_role := role;
          user_venues := [] |}.

End Models.

(** ** Sessions: [jsonwebtoken] and the [auth] middleware *)

(** The process environment the server reads at start-up. *)
Record Env : Type := {
  JWT_SECRET : option string;
}.

(** [process.env.JWT_SECRET || "bsbsfbrnsftentwnnwnwn"] *)
Definition jwtSecret (env : Env) : string :=
  match JWT_SECRET env with
  | Some s => if String.eqb s "" then "bsbsfbrnsftentwnnwnwn" else s
  | None => "bsbsfbrnsftentwnnwnwn"
  end.

Section Sessions.
Context {RT : Runtime}.

(** Seconds since the epoch at [now] milliseconds. *)
Definition clockTimestamp (now : Z) : Z := now / 1000.

(** The payload [jwt.sign] signs for [{ userId: user._id, role: user.role }]
    with [{ expiresIn: "7d" }]; the ObjectId is serialised as its string. *)
Definition sessionPayload (user : User) (now : Z) : JwtPayload :=
  {| claim_userId := VStr (user_id user);
     claim_role := VStr (user_role user);
     claim_iat := clockTimestamp now;
     claim_nbf := NoDate;
     claim_exp := Seconds (clockTimestamp now + 7 * 24 * 60 * 60) |}.

(** [jwt.sign({ userId: user._id, role: user.role }, secret,
    { expiresIn: "7d" })] *)
Definition jwt_sign (user : User) (secret : string) (now : Z) : string :=
  jwt_encode (sessionPayload user now) secret.

(** [jwt.verify(token, secret)], in the order the library works: the token
    is decoded, which throws [SyntaxError] for a payload [JSON.parse]
    refuses and otherwise yields [JsonWebTokenError] for a malformed token;
    then the signature is verified; then a [nbf] claim must be a number that
    the clock has reached ([payload.nbf > clockTimestamp] throws
    [NotBeforeError]); then an [exp] claim must be a number that the clock
    has not reached ([clockTimestamp >= payload.exp] throws
    [TokenExpiredError]).  A payload that is JSON [null], on which the
    claim checks throw a [TypeError], is not among the payloads modelled. *)
Definition jwt_verify (token secret : string) (now : Z) : Flow JwtPayload :=
  match jwt_decode token with
  | None =>
      if jwt_payload_unparsable token then Throw SyntaxError
      else Throw (JsonWebTokenError "jwt malformed")
  | Some payload =>
      if negb (jwt_signed_with token secret) then
        Throw (JsonWebTokenError "invalid signature")
      else
        _ ← match claim_nbf payload with
            | NoDate => Next ()
            | NotANumber => Throw (JsonWebTokenError "invalid nbf value")
            | Seconds nbf =>
                if clockTimestamp now <? nbf then Throw NotBeforeError
                else Next ()
            end;
        _ ← match claim_exp payload with
            | NoDate => Next ()
            | NotANumber => Throw (JsonWebTokenError "invalid exp value")
            | Seconds exp =>
                if exp <=? clockTimestamp now then Throw TokenExpiredError
                else Next ()
            end;
        Next payload
  end.

(** [auth]: [Next user] stands for [req.user = user; next()]. *)
Definition auth (env : Env) (st : Store) (authorization : option string)
  (now : Z) : Flow User :=
  let attempt : Flow User :=
    match authorization with
    | None => Send (json 401 (ErrorJson "Authentication required" None))
    | Some authHeader =>
        if String.eqb authHeader ""
           || negb (String.prefix "Bearer " authHeader) then
          Send (json 401 (ErrorJson "Authentication required" None))
        else
          match nth_error (split_on " " authHeader) 1 with
          | None | Some "" =>
              Send (json 401 (ErrorJson "Authentication required" None))
          | Some token =>
              decoded ← jwt_verify token (jwtSecret env) now;
              if negb (truthy (claim_userId decoded)) then
                Send (json 401 (ErrorJson "Invalid token" None))
              else
                user ← findById user_id (users st) (claim_userId decoded);
                match user with
                | None => Send (json 401 (ErrorJson "User not found" None))
                | Some user => Next user
                end
          end
    end in
  match attempt with
  | Throw error =>
      if String.eqb (exn_name error) "JsonWebTokenError" then
        Send (json 401 (ErrorJson "Invalid token" None))
      else if String.eqb (exn_name error) "TokenExpiredError" then
        Send (json 401 (ErrorJson "Token expired" None))
      else Send (json 500 (ErrorJson "Authentication failed" None))
  | done => done
  end.

(** [checkRole(roles)] *)
Definition checkRole (roles : list string) (user : User) : Flow User :=
  if negb (existsb (String.eqb (user_role user)) roles) then
    Send (json 403 (ErrorJson "Access denied" None))
  else Next user.

(** ** [POST /register] and [POST /login] *)

Definition register (env : Env) (st : Store) (body : JsObject)
  (salt : string) (newId : ObjectId) (now : Z) : Response * Store :=
  handle st
    (let name := prop body "name" in
     let email := prop body "email" in
     let password := prop body "password" in
     let role := prop body "role" in
     existingUser ← findOneByEmail (users st) email;
     match existingUser with
     | Some _ => Send (json 400 (ErrorJson "User already exists" None))
     | None =>
         hashedPassword ← match password with
                          | VStr s => Next (bcrypt_hash s salt)
                          | _ => Throw BcryptError
                          end;
         match newUser name email role hashedPassword newId with
         | None => Throw (ValidationError "User")
         | Some user =>
             if validateUser user then
               let st' := set_users st (insertOne (users st) user) in
               let token := jwt_sign user (jwtSecret env) now in
               Next (json 201 (SessionJson token (without_password user)),
                     st')
             else Throw (ValidationError "User")
         end
     end)
    (fun _ => json 500 (ErrorJson "Registration failed" None)).

Definition login (env : Env) (st : Store) (body : JsObject) (now : Z)
  : Response * Store :=
  handle st
    (let email := prop body "email" in
     let password := prop body "password" in
     if negb (truthy email) || negb (truthy password) then
       Send (json 400 (ErrorJson "Email and password are required" None))
     else
       user ← findOneByEmail (users st) email;
       match user with
       | None => Send (json 401 (ErrorJson "Invalid credentials" None))
       | Some user =>
           isMatch ← match password, user_password user with
                     | VStr s, Some hash => Next (bcrypt_compare s hash)
                     | _, _ => Throw BcryptError
                     end;
           if negb isMatch then
             Send (json 401 (ErrorJson "Invalid credentials" None))
           else
             let token := jwt_sign user (jwtSecret env) now in
             Next (json 200 (SessionJson token (without_password user)), st)
       end)
    (fun error =>
       json 500 (ErrorJson "Login failed" (Some (MessageOf error)))).

End Sessions.

(** ** Event and venue routes *)

Section Routes.
Context {RT : Runtime}.

(** [const eventData = { ...req.body }] and the assignments that follow it:
    uploaded images, the organizer, the three numeric coercions and the
    renaming of [date] and [time]. *)
Definition buildEventData (body : JsObject) (files : option (list string))
  (user : User) : JsObject :=
  let d := body in
  let d := <["images" := VArr (default [] files)]> d in
  let d := <["organizer" := VId (user_id user)]> d in
  let d :=
    <["expectedAttendees" := VNum (ToNumber (prop d "expectedAttendees"))]> d in
  let d := <["budget" := VNum (ToNumber (prop d "budget"))]> d in
  let d := <["price" := VNum (ToNumber (prop d "price"))]> d in
  let d := if truthy (prop d "date")
           then delete "date" (<["eventDate" := prop d "date"]> d) else d in
  let d := if truthy (prop d "time")
           then delete "time" (<["eventTime" := prop d "time"]> d) else d in
  d.

Definition requiredFields : list string :=
  ["title"; "description"; "venue"; "eventDate"; "eventTime";
   "expectedAttendees"; "budget"; "category"; "price"].

(** [requiredFields.filter((field) => !eventData[field])] *)
Definition missingFields (eventData : JsObject) : list string :=
  List.filter (fun field => negb (truthy (prop eventData field)))
    requiredFields.

(** The four checks the route makes between the required-field check and
    [EventModel.create]; [Next venue] when all of them pass. *)
Definition routeBookingChecks (st : Store) (eventData : JsObject)
  : Flow Venue :=
  venue ← findById venue_id (venues st) (prop eventData "venue");
  match venue with
  | None => Send (json 404 (ErrorJson "Venue not found" None))
  | Some venue =>
      if negb (venue_availability venue) then
        Send (json 400 (ErrorJson "Venue not available"
                (Some (Text "This venue is currently unavailable"))))
      else if js_gt (ToNumber (prop eventData "expectedAttendees"))
                    (venue_capacity venue) then
        Send (json 400 (ErrorJson "Capacity exceeded"
                (Some (Text
                  ("Expected attendees ("
                   +:+ ToString (prop eventData "expectedAttendees")
                   +:+ ") exceed venue capacity ("
                   +:+ NumberToString (venue_capacity venue) +:+ ")")))))
      else
        let eventDuration := PrimFloat.one in
        let venueCost :=
          PrimFloat.mul (venue_pricePerDay venue) eventDuration in
        if js_lt (ToNumber (prop eventData "budget")) venueCost then
          Send (json 400 (ErrorJson "Insufficient budget"
                  (Some (Text
                    ("Budget (" +:+ ToString (prop eventData "budget")
                     +:+ ") is insufficient for venue cost ("
                     +:+ NumberToString venueCost +:+ ")")))))
        else Next venue
  end.

(** [POST /events], after [auth], [checkRole(["organizer"])] and the upload
    middleware.  [newId] is the ObjectId the driver draws for the document. *)
Definition postEvents (st : Store) (user : User) (body : JsObject)
  (files : option (list string)) (newId : ObjectId) (now : Z)
  : Response * Store :=
  handle st
    (let eventData := buildEventData body files user in
     let missing := missingFields eventData in
     if (0 <? Z.of_nat (length missing)) then
       Send (json 400 (ErrorJson "Missing required fields"
               (Some (Text ("Please fill in the following fields: "
                            +:+ String.concat ", " missing)))))
     else
       _ ← routeBookingChecks st eventData;
       created ← createEventDoc st eventData newId now;
       Next (json 201 (EventJson (fst created)), snd created))
    (fun error =>
       json 500 (ErrorJson "Failed to create event"
                   (Some (MessageOf error)))).

(** [PUT /events/:id/status], after [auth] and [checkRole(["venue_owner"])]. *)
Definition putEventStatus (st : Store) (user : User) (id : string)
  (body : JsObject) : Response * Store :=
  handle st
    (let status := prop body "status" in
     event ← findById event_id (events st) (VStr id);
     venue ← match event with
             | None => Throw TypeError
             | Some event =>
                 findById venue_id (venues st) (VId (event_venue event))
             end;
     match event, venue with
     | Some event, Some venue =>
         if negb (String.eqb (venue_owner venue) (user_id user)) then
           Send (json 403 (ErrorJson "Not authorized" None))
         else
           let cast := optional (castString status) in
           let event := set_event_status event (default None cast) in
           st' ← saveEvent st (bool_decide (is_Some cast)) event;
           Next (json 200 (EventJson event), st')
     | _, _ => Throw TypeError
     end)
    (fun _ => json 500 (ErrorJson "Failed to update event status" None)).

(** [venue.reviews.push({ user, rating, comment })]: the subdocument is cast
    on the way in; [date] takes its default.  The second component is false
    when a member could not be cast. *)
Definition newReview (user : User) (body : JsObject) (now : Z)
  : Review * bool :=
  let rating := castNumber (prop body "rating") in
  let comment := optional (castString (prop body "comment")) in
  ({| rev_user := user_id user;
      rev_rating := match rating with
                    | Value x => Rated x
                    | CastNull => NullRating
                    | CastUndefined | CastFailed => NoRating
                    end;
      rev_comment := default None comment;
      rev_date := now |},
   match rating with CastFailed => false | _ => true end
   && bool_decide (is_Some comment)).

(** [venue.reviews.reduce((sum, review) => sum + review.rating, 0)] *)
Definition totalRating (reviews : list Review) : float :=
  fold_left
    (fun sum review => PrimFloat.add sum (ratingOperand (rev_rating review)))
    reviews PrimFloat.zero.

(** [POST /venues/:id/reviews], after [auth].  Assigning a value that is not
    a number to [venue.rating] is a failed cast, which rejects the save. *)
Definition postVenueReview (st : Store) (user : User) (id : string)
  (body : JsObject) (now : Z) : Response * Store :=
  handle st
    (venue ← findById venue_id (venues st) (VStr id);
     match venue with
     | None => Throw TypeError
     | Some venue =>
         let pushed := newReview user body now in
         let reviews := (venue_reviews venue ++ [fst pushed])%list in
         let rating :=
           PrimFloat.div (totalRating reviews) (length_number reviews) in
         let venue :=
           set_venue_reviews_rating venue reviews
             (if PrimFloat.is_nan rating then venue_rating venue
              else rating) in
         st' ← saveVenue st (snd pushed && negb (PrimFloat.is_nan rating))
                 venue;
         Next (json 200 (VenueJson venue), st')
     end)
    (fun _ => json 500 (ErrorJson "Failed to add review" None)).

(** [POST /events/:id/reviews], after [auth]. *)
Definition postEventReview (st : Store) (user : User) (id : string)
  (body : JsObject) (now : Z) : Response * Store :=
  handle st
    (event ← findById event_id (events st) (VStr id);
     match event with
     | None => Throw TypeError
     | Some event =>
         let pushed := newReview user body now in
         let event :=
           set_event_reviews event (event_reviews event ++ [fst pushed])%list in
         st' ← saveEvent st (snd pushed) event;
         Next (json 200 (EventJson event), st')
     end)
    (fun _ => json 500 (ErrorJson "Failed to add review" None)).

(** [PATCH /vevent/:id/venue-request], after [auth]. *)
Definition patchVenueRequest (st : Store) (user : User) (id : string)
  (body : JsObject) (now : Z) : Response * Store :=
  handle st
    (let action := prop body "action" in
     let response := prop body "response" in
     event ← findById event_id (events st) (VStr id);
     match event with
     | None => Send (json 404 (ErrorJson "Event not found" None))
     | Some event =>
         if negb (String.eqb (user_role user) "venue_owner")
            || negb (existsb (eqb_id (event_venue event)) (user_venues user))
         then Send (json 403 (ErrorJson "Unauthorized" None))
         else
           let status := optional (castString action) in
           let reply := optional (castString response) in
           let request := event_venueRequest event in
           let request :=
             {| vr_status := default None status;
                vr_message := vr_message request;
                vr_response := default None reply;
                vr_requestedAt := vr_requestedAt request;
                vr_respondedAt := Some now |} in
           let event := set_event_venueRequest event request in
           let event :=
             set_event_status event
               (Some (if strict_eq_str action "approved" then "approved"
                      else "rejected")) in
           st' ← saveEvent st (bool_decide (is_Some status)
                               && bool_decide (is_Some reply)) event;
           Next (json 200 (SuccessEventJson event), st')
     end)
    (fun _ => json 500 (ErrorJson "Failed to process venue request" None)).

End Routes.

(** ** The routes as Express chains them *)

Section Chains.
Context {RT : Runtime}.

(** A route is its middleware in order: [Send] is the answer of the first
    guard that refuses, [Next] the answer of the handler and the store it
    leaves.  The upload middleware of [POST /events] has run when the
    handler does; [files] is what it accepted. *)
Definition route_postEvents (env : Env) (st : Store)
  (authorization : option string) (body : JsObject)
  (files : option (list string)) (newId : ObjectId) (now : Z)
  : Flow (Response * Store) :=
  user ← auth env st authorization now;
  user ← checkRole ["organizer"] user;
  Next (postEvents st user body files newId now).

Definition route_putEventStatus (env : Env) (st : Store)
  (authorization : option string) (id : string) (body : JsObject) (now : Z)
  : Flow (Response * Store) :=
  user ← auth env st authorization now;
  user ← checkRole ["venue_owner"] user;
  Next (putEventStatus st user id body).

Definition route_patchVenueRequest (env : Env) (st : Store)
  (authorization : option string) (id : string) (body : JsObject) (now : Z)
  : Flow (Response * Store) :=
  user ← auth env st authorization now;
  Next (patchVenueRequest st user id body now).

Definition route_postVenueReview (env : Env) (st : Store)
  (authorization : option string) (id : string) (body : JsObject) (now : Z)
  : Flow (Response * Store) :=
  user ← auth env st authorization now;
  Next (postVenueReview st user id body now).

Definition route_postEventReview (env : Env) (st : Store)
  (authorization : option string) (id : string) (body : JsObject) (now : Z)
  : Flow (Response * Store) :=
  user ← auth env st authorization now;
  Next (postEventReview st user id body now).

End Chains.

(** ** Routes that read *)

(** [try { m } catch (error) { res.status(...).json(h error) }] for the
    handlers below, whose refusals are [Send] and whose answer is [Next]. *)
Definition rescue {A} (m : Flow A) (h : Exn -> Response) : Flow A :=
  match m with
  | Throw error => Send (h error)
  | done => done
  end.

(** [{ name, email, _id, role }] *)
Record Profile : Type := {
  profile_name : option string;
  profile_email : option string;
  profile_id : ObjectId;
  profile_role : string;
}.

(** What [populate("organizer", "name email")] puts in place of the id. *)
Record UserRef : Type := {
  ref_user_id : ObjectId;
  ref_user_name : option string;
  ref_user_email : option string;
}.

(** What [populate("venue", "name address")] puts in place of the id. *)
Record VenueRef : Type := {
  ref_venue_id : ObjectId;
  ref_venue_name : string;
  ref_venue_address : string;
}.

(** What [populate] with
    [select: "name address capacity pricePerDay availability"] puts there. *)
Record VenueSummary : Type := {
  sum_venue_id : ObjectId;
  sum_venue_name : string;
  sum_venue_address : string;
  sum_venue_capacity : float;
  sum_venue_pricePerDay : float;
  sum_venue_availability : bool;
}.

(** An event of a listing; a reference that matches no document is
    populated with [null]. *)
Record ListedEvent (V : Type) : Type := {
  listed_event : Event;
  listed_organizer : option UserRef;
  listed_venue : option V;
}.
Arguments listed_event {V} l.
Arguments listed_organizer {V} l.
Arguments listed_venue {V} l.

Definition byId {D} (id_of : D -> ObjectId) (coll : list D) (i : ObjectId)
  : option D :=
  find (fun d => eqb_id (id_of d) i) coll.

Definition userRef (u : User) : UserRef :=
  {| ref_user_id := user_id u; ref_user_name := user_name u;
     ref_user_email := user_email u |}.

Definition venueRef (v : Venue) : VenueRef :=
  {| ref_venue_id := venue_id v; ref_venue_name := venue_name v;
     ref_venue_address := venue_address v |}.

Definition venueSummary (v : Venue) : VenueSummary :=
  {| sum_venue_id := venue_id v; sum_venue_name := venue_name v;
     sum_venue_address := venue_address v;
     sum_venue_capacity := venue_capacity v;
     sum_venue_pricePerDay := venue_pricePerDay v;
     sum_venue_availability := venue_availability v |}.

Definition populateEvent {V} (select : Venue -> V) (st : Store) (e : Event)
  : ListedEvent V :=
  {| listed_event := e;
     listed_organizer := userRef <$> byId user_id (users st) (event_organizer e);
     listed_venue := select <$> byId venue_id (venues st) (event_venue e) |}.

(** [{ venue: { $in: ids } }] *)
Definition venueIn (ids : list ObjectId) (e : Event) : bool :=
  existsb (eqb_id (event_venue e)) ids.

(** [.sort({ "venueRequest.requestedAt": -1 })]: latest first.  The
    database fixes no order among documents with the same time; here they
    keep the collection's. *)
Fixpoint insertByRequestedAt (e : Event) (sorted : list Event) : list Event :=
  match sorted with
  | [] => [e]
  | x :: rest =>
      if vr_requestedAt (event_venueRequest x)
         <=? vr_requestedAt (event_venueRequest e)
      then e :: sorted
      else x :: insertByRequestedAt e rest
  end.

Definition sortByRequestedAt (es : list Event) : list Event :=
  fold_right insertByRequestedAt [] es.

Section Reads.
Context {RT : Runtime}.

(** [GET /profile], after [auth]. *)
Definition getProfile (st : Store) (reqUser : User) : Flow Profile :=
  rescue
    (user ← findById user_id (users st) (VId (user_id reqUser));
     match user with
     | None => Send (json 404 (ErrorJson "User not found" None))
     | Some user =>
         Next {| profile_name := user_name user;
                 profile_email := user_email user;
                 profile_id := user_id user;
                 profile_role := user_role user |}
     end)
    (fun _ => json 500 (ErrorJson "Failed to fetch profile" None)).

Definition route_getProfile (env : Env) (st : Store)
  (authorization : option string) (now : Z) : Flow Profile :=
  user ← auth env st authorization now;
  getProfile st user.

(** [GET /events], after [auth]: the query is scoped by the caller's role;
    a venue owner's venue list is read from the store again. *)
Definition getEvents (st : Store) (reqUser : User)
  : Flow (list (ListedEvent VenueRef)) :=
  rescue
    (query ←
       if String.eqb (user_role reqUser) "organizer" then
         Next (Some (fun e =>
                 eqb_id (event_organizer e) (user_id reqUser)))
       else if String.eqb (user_role reqUser) "venue_owner" then
         user ← findById user_id (users st) (VId (user_id reqUser));
         match user with
         | None => Throw TypeError
         | Some user =>
             if (length (user_venues user) =? 0)%nat then Next None
             else Next (Some (venueIn (user_venues user)))
         end
       else Next (Some (fun _ => true));
     match query with
     | None => Next []
     | Some matches =>
         Next (map (populateEvent venueRef st)
                   (List.filter matches (events st)))
     end)
    (fun error =>
       json 500 (ErrorJson "Failed to fetch events"
                   (Some (MessageOf error)))).

(** [GET /event/venue-requests], after [auth]. *)
Definition getVenueRequests (st : Store) (reqUser : User)
  : Flow (list (ListedEvent VenueSummary)) :=
  rescue
    (user ← findById user_id (users st) (VId (user_id reqUser));
     match user with
     | None => Send (json 403 (ErrorJson "Unauthorized" None))
     | Some user =>
         if negb (String.eqb (user_role user) "venue_owner") then
           Send (json 403 (ErrorJson "Unauthorized" None))
         else if (length (user_venues user) =? 0)%nat then
           Send (json 404 (ErrorJson "No venues found for this user" None))
         else
           let pending e :=
             match vr_status (event_venueRequest e) with
             | Some s => String.eqb s "pending"
             | None => false
             end in
           Next (map (populateEvent venueSummary st)
                   (sortByRequestedAt
                      (List.filter
                         (fun e => pending e && venueIn (user_venues user) e)
                         (events st))))
     end)
    (fun error =>
       json 500 (ErrorJson "Failed to fetch venue requests"
                   (Some (MessageOf error)))).

End Reads.

(** ** Venue routes that write *)

(** [JSON.parse] on the [amenities] field followed by Mongoose's cast of
    the result to [[String]]: a syntax error, a value that casts to no
    list of strings, or the list. *)
Inductive Amenities : Type :=
| AmenitiesSyntaxError
| AmenitiesNotStrings
| AmenitiesList (xs : list string).

Class JsonRuntime : Type := {
  parseAmenities : string -> Amenities;
}.

Definition set_venue_availability (v : Venue) (b : bool) : Venue :=
  {| venue_id := venue_id v; venue_owner := venue_owner v;
     venue_name := venue_name v; venue_address := venue_address v;
     venue_capacity := venue_capacity v;
     venue_pricePerDay := venue_pricePerDay v;
     venue_amenities := venue_amenities v; venue_images := venue_images v;
     venue_description := venue_description v;
     venue_availability := b;
     venue_rating := venue_rating v; venue_reviews := venue_reviews v |}.

Definition push_user_venue (u : User) (i : ObjectId) : User :=
  {| user_id := user_id u; user_name := user_name u;
     user_email := user_email u; user_password := user_password u;
     user_role := user_role u;
     user_venues := (user_venues u ++ [i])%list |}.

(** Mongoose's cast to Boolean. *)
Definition castBoolean (v : JsVal) : Cast bool :=
  match v with
  | VUndef => CastUndefined
  | VNull => CastNull
  | VBool b => Value b
  | VNum x =>
      if PrimFloat.eqb x PrimFloat.one then Value true
      else if PrimFloat.eqb x PrimFloat.zero then Value false
      else CastFailed
  | VStr s =>
      if String.eqb s "true" || String.eqb s "1" || String.eqb s "yes"
      then Value true
      else if String.eqb s "false" || String.eqb s "0" || String.eqb s "no"
           then Value false
           else CastFailed
  | VArr _ | VId _ => CastFailed
  end.

(** [UserModel.findByIdAndUpdate(id, { $push: { venues: venueId } })]: the
    first user under the id is updated; no user, no change. *)
Fixpoint pushVenueById (i venueId : ObjectId) (coll : list User)
  : list User :=
  match coll with
  | [] => []
  | u :: rest =>
      if eqb_id (user_id u) i then push_user_venue u venueId :: rest
      else u :: pushVenueById i venueId rest
  end.

(** The outcome of constructing a document of a model. *)
Inductive Built (A : Type) : Type :=
| Document (a : A)
| Invalid
| Unrepresented.
Arguments Document {A} a.
Arguments Invalid {A}.
Arguments Unrepresented {A}.

Section VenueWrites.
Context {RT : Runtime} {JR : JsonRuntime}.

(** [PUT /venues/:id/availability], after [auth] and
    [checkRole(["venue_owner"])]: [Next] is the 200 answer with the venue
    and the store it leaves.  An [availability] of [null] or none at all
    would store a venue without a boolean there, which [Venue] does not
    represent: the model is defined on the other bodies. *)
Definition putVenueAvailability (st : Store) (user : User) (id : string)
  (body : JsObject) : option (Flow (Venue * Store)) :=
  let failed error :=
    json 500 (ErrorJson "Failed to update availability"
                (Some (MessageOf error))) in
  match findById venue_id (venues st) (VStr id) with
  | Next None => Some (Send (json 404 (ErrorJson "Venue not found" None)))
  | Next (Some venue) =>
      if negb (String.eqb (venue_owner venue) (user_id user)) then
        Some (Send (json 403 (ErrorJson "Not authorized" None)))
      else
        match castBoolean (prop body "availability") with
        | Value b =>
            let venue := set_venue_availability venue b in
            Some (rescue (st' ← saveVenue st true venue; Next (venue, st'))
                    failed)
        | CastFailed =>
            Some (rescue (st' ← saveVenue st false venue; Next (venue, st'))
                    failed)
        | CastNull | CastUndefined => None
        end
  | other => Some (rescue (_ ← other; Throw TypeError) failed)
  end.

(** [const venueData = { ...req.body }] and the coercions that follow it;
    [amenities] is kept apart. *)
Definition buildVenueData (body : JsObject) (files : option (list string))
  (user : User) : JsObject :=
  let d := body in
  let d := <["capacity" := VNum (ToNumber (prop d "capacity"))]> d in
  let d := <["pricePerDay" := VNum (ToNumber (prop d "pricePerDay"))]> d in
  let d :=
    <["availability" :=
        VBool (strict_eq_str (prop d "availability") "true"
               || match prop d "availability" with
                  | VBool true => true
                  | _ => false
                  end)]> d in
  let d := match files with
           | Some (f :: fs) => <["images" := VArr (f :: fs)]> d
           | _ => d
           end in
  <["owner" := VId (user_id user)]> d.

(** [venueData.amenities] once the route is through with it. *)
Definition venueAmenities (body : JsObject) : Amenities :=
  match prop body "amenities" with
  | VStr s => parseAmenities s
  | v => match castStrings v with
         | Some xs => AmenitiesList xs
         | None => AmenitiesNotStrings
         end
  end.

Definition venueRequiredFields : list string :=
  ["name"; "address"; "capacity"; "pricePerDay"].

(** [new VenueModel(venueData)] with the validation of [create].  A
    [rating] of [null] would store a venue without a number there, which
    [Venue] does not represent.  The bodies modelled carry no nested
    objects, so [reviews] starts empty. *)
Definition newVenue (venueData : JsObject) (amenities : Amenities)
  (id : ObjectId) : Built Venue :=
  let fields :=
    owner ← required (castObjectId (prop venueData "owner"));
    name ← required (castString (prop venueData "name"));
    address ← required (castString (prop venueData "address"));
    capacity ← required (castNumber (prop venueData "capacity"));
    pricePerDay ← required (castNumber (prop venueData "pricePerDay"));
    amenities ← match amenities with
                | AmenitiesList xs => Some xs
                | _ => None
                end;
    images ← castStrings (prop venueData "images");
    description ← optional (castString (prop venueData "description"));
    availability ← match castBoolean (prop venueData "availability") with
                   | CastUndefined => Some (Some true)
                   | c => optional c
                   end;
    rating ← match castNumber (prop venueData "rating") with
             | CastUndefined => Some (Some PrimFloat.zero)
             | c => optional c
             end;
    Some (owner, name, address, capacity, pricePerDay, amenities, images,
          description, availability, rating) in
  match fields with
  | None => Invalid
  | Some (owner, name, address, capacity, pricePerDay, amenities, images,
          description, availability, rating) =>
      if nonEmpty name && nonEmpty address then
        match availability, rating with
        | Some availability, Some rating =>
            Document
              {| venue_id := id; venue_owner := owner; venue_name := name;
                 venue_address := address; venue_capacity := capacity;
                 venue_pricePerDay := pricePerDay;
                 venue_amenities := amenities; venue_images := images;
                 venue_description := description;
                 venue_availability := availability;
                 venue_rating := rating; venue_reviews := [] |}
        | _, _ => Unrepresented
        end
      else Invalid
  end.

(** [POST /venues], after [auth] and the upload middleware: [Next] is the
    201 answer with the venue and the store it leaves. *)
Definition postVenues (st : Store) (user : User) (body : JsObject)
  (files : option (list string)) (newId : ObjectId)
  : option (Flow (Venue * Store)) :=
  let failed error :=
    json 500 (ErrorJson "Failed to create venue" (Some (MessageOf error))) in
  if negb (String.eqb (user_role user) "venue_owner") then
    Some (Send (json 403
                  (ErrorJson "Only venue owners can create venues" None)))
  else
    let venueData := buildVenueData body files user in
    let amenities := venueAmenities body in
    match amenities with
    | AmenitiesSyntaxError =>
        Some (Send (json 400 (ErrorJson "Invalid amenities format" None)))
    | _ =>
        let missing :=
          List.filter (fun field => negb (truthy (prop venueData field)))
            venueRequiredFields in
        if (0 <? Z.of_nat (length missing)) then
          Some (Send (json 400
                        (ErrorJson "Missing required fields"
                           (Some (Text ("Missing: "
                                        +:+ String.concat ", " missing))))))
        else
          match newVenue venueData amenities newId with
          | Invalid => Some (Send (failed (ValidationError "Venue")))
          | Unrepresented => None
          | Document venue =>
              Some (Next
                      (venue,
                       {| users :=
                            pushVenueById (user_id user) (venue_id venue)
                              (users st);
                          venues := insertOne (venues st) venue;
                          events := events st |}))
          end
    end.

End VenueWrites.

(** ** The vocabulary of the properties *)

Section Vocabulary.
Context {RT : Runtime}.

(** A token that holds no space, as [authHeader.split(" ")] needs it. *)
Definition noSpace (s : string) : bool :=
  forallb (fun c => negb (Ascii.eqb c " ")) (list_ascii_of_string s).

(** The fields of the creation form, under the names the client or the
    route uses for them. *)
Definition creationForm : list string :=
  ["title"; "description"; "venue"; "date"; "time"; "eventDate";
   "eventTime"; "expectedAttendees"; "budget"; "category"; "price";
   "requirements"; "images"].

(** The fields of the venue form. *)
Definition venueForm : list string :=
  ["name"; "address"; "capacity"; "pricePerDay"; "availability";
   "amenities"; "description"; "images"].

(** Every stored event satisfies its schema and is accepted by the hook
    against the stored venues. *)
Definition consistent (st : Store) : Prop :=
  Forall (fun e => validateEvent e = true /\ preSave st e = Next tt)
         (events st).

(** What a route that saves one event leaves behind: the store as it was,
    or the store with one validated, hook-approved event written. *)
Definition savedOne (st st' : Store) : Prop :=
  st' = st
  \/ exists e,
      validateEvent e = true /\ preSave st e = Next tt
      /\ (st' = set_events st (updateById event_id (events st) e)
          \/ st' = set_events st (insertOne (events st) e)).

(** The document [PATCH /vevent/:id/venue-request] hands to [save]. *)
Definition decided (event : Event) (action response : JsVal) (now : Z)
  : Event :=
  set_event_status
    (set_event_venueRequest event
       {| vr_status := default None (optional (castString action));
          vr_message := vr_message (event_venueRequest event);
          vr_response := default None (optional (castString response));
          vr_requestedAt := vr_requestedAt (event_venueRequest event);
          vr_respondedAt := Some now |})
    (Some (if strict_eq_str action "approved" then "approved"
           else "rejected")).

(** A listing by [venueRequest.requestedAt], latest request first. *)
Definition notEarlier (a b : Event) : Prop :=
  vr_requestedAt (event_venueRequest b)
  <= vr_requestedAt (event_venueRequest a).

End Vocabulary.

(** ** A runtime and a store to evaluate the handlers on *)

Module Sample.

Definition digit (c : ascii) : option N :=
  let n := N_of_ascii c in
  if ((48 <=? n) && (n <=? 57))%N then Some (n - 48)%N else None.

Fixpoint digitsFrom (acc : N) (s : string) : option N :=
  match s with
  | EmptyString => Some acc
  | String c rest =>
      match digit c with
      | Some d => digitsFrom (10 * acc + d)%N rest
      | None => None
      end
  end.

(** An unsigned decimal literal. *)
Definition parseDecimal (s : string) : option N :=
  match s with
  | EmptyString => None
  | _ => digitsFrom 0%N s
  end.

Definition numberOfN (n : N) : float :=
  PrimFloat.of_uint63 (Uint63.of_Z (Z.of_N n)).

(** [Number(s)] where [s] is empty or an unsigned decimal integer below
    2^53; the other strings here denote no number. *)
Definition decimalToNumber (s : string) : float :=
  match s with
  | EmptyString => PrimFloat.zero
  | _ => match parseDecimal s with
         | Some n => numberOfN n
         | None => PrimFloat.nan
         end
  end.

(** The integer a number is, when it is one. *)
Definition integerOfNumber (x : float) : option Z :=
  match Prim2SF x with
  | S754_zero _ => Some 0
  | S754_finite s m e =>
      let sign := if s then (-1) else 1 in
      if 0 <=? e then Some (sign * (Z.pos m * 2 ^ e))
      else if Z.pos m mod 2 ^ (- e) =? 0
           then Some (sign * (Z.pos m / 2 ^ (- e)))
           else None
  | _ => None
  end.

(** [String(x)] for the integers below 10^21, [NaN] and the infinities. *)
Definition integerToString (x : float) : string :=
  match integerOfNumber x with
  | Some z => pretty z
  | None =>
      if PrimFloat.is_nan x then "NaN"
      else if PrimFloat.ltb x PrimFloat.zero then "-Infinity"
      else "Infinity"
  end.

Definition isHexDigit (c : ascii) : bool :=
  let n := N_of_ascii c in
  ((48 <=? n) && (n <=? 57) || (97 <=? n) && (n <=? 102))%N.

(** Twenty-four lower-case hexadecimal digits. *)
Definition hexObjectId (s : string) : option ObjectId :=
  if (String.length s =? 24)%nat && forallb isHexDigit (list_ascii_of_string s)
  then Some s else None.

(** Numbers and decimal strings as milliseconds since the epoch. *)
Definition millisOfValue (v : JsVal) : option Z :=
  match v with
  | VNum x => integerOfNumber x
  | VStr s => Z.of_N <$> parseDecimal s
  | _ => None
  end.

(** A stand-in for bcrypt that ignores the salt. *)
Definition toyHash (password salt : string) : string :=
  "hash(" +:+ password +:+ ")".
Definition toyCompare (password hash : string) : bool :=
  String.eqb hash ("hash(" +:+ password +:+ ")").

(** A stand-in for the token format: the claims and the secret, separated
    by dots; a [nbf] claim, when there is one, comes before the expiry, and
    a claim that is not there is written [-]. *)
Definition toyDate (d : NumericDate) : string :=
  match d with
  | NoDate => "-"
  | Seconds s => pretty s
  | NotANumber => "?"
  end.

Definition parseDate (s : string) : NumericDate :=
  if String.eqb s "-" then NoDate
  else match parseDecimal s with
       | Some n => Seconds (Z.of_N n)
       | None => NotANumber
       end.

Definition toyEncode (p : JwtPayload) (secret : string) : string :=
  match claim_userId p, claim_role p with
  | VStr uid, VStr role =>
      uid +:+ "." +:+ role +:+ "." +:+ pretty (claim_iat p) +:+ "."
      +:+ match claim_nbf p with
          | NoDate => ""
          | nbf => toyDate nbf +:+ "."
          end
      +:+ toyDate (claim_exp p) +:+ "." +:+ secret
  | _, _ => "."
  end.

Definition toyDecode (token : string) : option JwtPayload :=
  match split_on "." token with
  | [uid; role; iat; exp; _] =>
      iat ← parseDecimal iat;
      Some {| claim_userId := VStr uid; claim_role := VStr role;
              claim_iat := Z.of_N iat; claim_nbf := NoDate;
              claim_exp := parseDate exp |}
  | [uid; role; iat; nbf; exp; _] =>
      iat ← parseDecimal iat;
      Some {| claim_userId := VStr uid; claim_role := VStr role;
              claim_iat := Z.of_N iat; claim_nbf := parseDate nbf;
              claim_exp := parseDate exp |}
  | _ => None
  end.

(** The stand-in for a token whose header says [typ: "JWT"] and whose
    payload is not JSON text: three parts, the first of them [JWT]. *)
Definition toyUnparsable (token : string) : bool :=
  match split_on "." token with
  | [typ; _; _] => String.eqb typ "JWT"
  | _ => false
  end.

Definition toySignedWith (token secret : string) : bool :=
  match split_on "." token with
  | [_; _; sig] | [_; _; _; _; sig] | [_; _; _; _; _; sig] =>
      String.eqb sig secret
  | _ => false
  end.

#[global] Instance runtime : Runtime := {|
  StringToNumber := decimalToNumber;
  NumberToString := integerToString;
  objectIdOfString := hexObjectId;
  dateOfValue := millisOfValue;
  bcrypt_hash := toyHash;
  bcrypt_compare := toyCompare;
  jwt_encode := toyEncode;
  jwt_decode := toyDecode;
  jwt_payload_unparsable := toyUnparsable;
  jwt_signed_with := toySignedWith;
|}.

Definition env : Env := {| JWT_SECRET := Some "s3cret" |}.

Definition ownerA : User :=
  {| user_id := "64a0000000000000000000a1"; user_name := Some "Asha";
     user_email := Some "asha@example.org"; user_password := Some "hash(a)";
     user_role := "venue_owner";
     user_venues := ["64b0000000000000000000b1"] |}.

Definition ownerB : User :=
  {| user_id := "64a0000000000000000000a2"; user_name := Some "Bo";
     user_email := Some "bo@example.org"; user_password := Some "hash(b)";
     user_role := "venue_owner";
     user_venues := ["64b0000000000000000000b2"] |}.

Definition organizer : User :=
  {| user_id := "64a0000000000000000000a3"; user_name := Some "Chi";
     user_email := Some "chi@example.org"; user_password := Some "hash(c)";
     user_role := "organizer"; user_venues := [] |}.

(** The venue of the specification's scenarios: capacity 100, 400 a day. *)
Definition hall : Venue :=
  {| venue_id := "64b0000000000000000000b1";
     venue_owner := "64a0000000000000000000a1";
     venue_name := "Hall"; venue_address := "1 Main Street";
     venue_capacity := 100; venue_pricePerDay := 400;
     venue_amenities := []; venue_images := []; venue_description := None;
     venue_availability := true; venue_rating := 4;
     venue_reviews :=
       [ {| rev_user := "64a0000000000000000000a3"; rev_rating := Rated 5;
            rev_comment := Some "good"; rev_date := 1700000000000 |};
         {| rev_user := "64a0000000000000000000a2"; rev_rating := Rated 3;
            rev_comment := None; rev_date := 1700000100000 |} ] |}.

Definition closedHall : Venue :=
  set_venue_reviews_rating
    {| venue_id := "64b0000000000000000000b2";
       venue_owner := "64a0000000000000000000a2";
       venue_name := "Loft"; venue_address := "2 Side Street";
       venue_capacity := 100; venue_pricePerDay := 400;
       venue_amenities := []; venue_images := []; venue_description := None;
       venue_availability := false; venue_rating := 0;
       venue_reviews := [] |} [] 0.

Definition gala (id venue : ObjectId) : Event :=
  {| event_id := id; event_organizer := "64a0000000000000000000a3";
     event_venue := venue; event_title := "Gala";
     event_description := "Annual gala"; event_eventDate := 1750000000000;
     event_eventTime := "18:00"; event_expectedAttendees := 50;
     event_status := Some "pending"; event_price := 20;
     event_requirements := []; event_images := [];
     event_category := "Party"; event_attendees := []; event_reviews := [];
     event_venueRequest :=
       {| vr_status := Some "pending"; vr_message := None;
          vr_response := None; vr_requestedAt := 1700000000000;
          vr_respondedAt := None |};
     event_budget := 500 |}.

Definition store : Store :=
  {| users := [ownerA; ownerB; organizer];
     venues := [hall; closedHall];
     events := [gala "64c0000000000000000000c1" "64b0000000000000000000b1";
                gala "64c0000000000000000000c2" "64b0000000000000000000b2"] |}.

(** A creation form: 50 attendees, budget 500, for the hall. *)
Definition form : JsObject :=
  list_to_map
    [("title", VStr "Launch"); ("description", VStr "Product launch");
     ("venue", VStr "64b0000000000000000000b1");
     ("date", VStr "1750000000000"); ("time", VStr "10:00");
     ("expectedAttendees", VStr "50"); ("budget", VStr "500");
     ("category", VStr "Conference"); ("price", VStr "20")].

(** The same form without a title, for a free event. *)
Definition freeForm : JsObject :=
  <["price" := VNum 0]> (delete "title" form).

(** The payload as the client names its fields. *)
Definition formFields : list string :=
  ["title"; "description"; "venue"; "date"; "time"; "expectedAttendees";
   "budget"; "category"; "price"].

Definition decision : JsObject :=
  list_to_map [("action", VStr "approved"); ("response", VStr "welcome")].

Definition review : JsObject :=
  list_to_map [("rating", VNum 4); ("comment", VStr "fine")].

Definition credentials : JsObject :=
  list_to_map
    [("name", VStr "Dee"); ("email", VStr "dee@example.org");
     ("password", VStr "pw"); ("role", VStr "organizer")].

(** Credentials with an empty email. *)
Definition blankEmail : JsObject :=
  list_to_map
    [("name", VStr "Dee"); ("email", VStr ""); ("password", VStr "pw");
     ("role", VStr "organizer")].

(** Tokens for [ownerA]: one signed with another secret, one signed with the
    process's secret that expired in 2020. *)
Definition forgedToken : string :=
  "64a0000000000000000000a1.venue_owner.1700000000.1700604800.other".
Definition staleToken : string :=
  "64a0000000000000000000a1.venue_owner.1600000000.1600604800.s3cret".

Definition newId : ObjectId := "64c0000000000000000000c9".
Definition now : Z := 1700000500000.

(** The token registration at [now] issues for the user [newId]. *)
Definition deeToken : string :=
  "64c0000000000000000000c9.organizer.1700000500.1700605300.s3cret".

(** A process started without [JWT_SECRET] signs with the secret written in
    the source. *)
Definition defaultEnv : Env := {| JWT_SECRET := None |}.

(** Tokens for [ownerA] signed with that secret, which expired in 2020: one
    that is not valid before 2033, and one whose [nbf] is not a number. *)
Definition earlyToken : string :=
  "64a0000000000000000000a1.venue_owner.1600000000.2000000000.1600604800."
  +:+ "bsbsfbrnsftentwnnwnwn".
Definition oddToken : string :=
  "64a0000000000000000000a1.venue_owner.1600000000.soon.1600604800."
  +:+ "bsbsfbrnsftentwnnwnwn".

(** A token signed with another secret whose payload does not parse. *)
Definition garbledToken : string := "JWT.userId.other".

(** The creation form, for the loft. *)
Definition loftForm : JsObject :=
  <["venue" := VStr "64b0000000000000000000b2"]> form.

(** The creation form, for a venue that is not in the store. *)
Definition nowhereForm : JsObject :=
  <["venue" := VStr "64b0000000000000000000b9"]> form.

(** The store without the event at the loft. *)
Definition openStore : Store :=
  {| users := [ownerA; ownerB; organizer];
     venues := [hall; closedHall];
     events := [gala "64c0000000000000000000c1" "64b0000000000000000000b1"] |}.

(** A token for [ownerA] that is valid at [now]. *)
Definition validToken : string :=
  "64a0000000000000000000a1.venue_owner.1700000000.1700604800.s3cret".

(** The credentials of [ownerA], and the same with a wrong password. *)
Definition ashaLogin : JsObject :=
  list_to_map [("email", VStr "asha@example.org"); ("password", VStr "a")].
Definition ashaGuess : JsObject :=
  list_to_map [("email", VStr "asha@example.org"); ("password", VStr "b")].

(** The token [login] issues for [ownerA] at [now]. *)
Definition ashaToken : string :=
  "64a0000000000000000000a1.venue_owner.1700000500.1700605300.s3cret".

Definition completion : JsObject :=
  list_to_map [("status", VStr "completed")].

Definition refusal : JsObject :=
  list_to_map [("action", VStr "rejected"); ("response", VStr "sorry")].

(** A stand-in for [JSON.parse] on the amenities: two arrays, an object,
    and no other text. *)
Definition toyAmenities (s : string) : Amenities :=
  if String.eqb s "[]" then AmenitiesList []
  else if String.eqb s "[1]" then AmenitiesList ["1"]
  else if String.eqb s "{}" then AmenitiesNotStrings
  else AmenitiesSyntaxError.

#[global] Instance amenities : JsonRuntime := {|
  parseAmenities := toyAmenities;
|}.

Definition closing : JsObject :=
  list_to_map [("availability", VBool false)].

(** A venue form that says nothing about availability. *)
Definition barnForm : JsObject :=
  list_to_map
    [("name", VStr "Barn"); ("address", VStr "3 Back Lane");
     ("capacity", VStr "80"); ("pricePerDay", VStr "250");
     ("amenities", VStr "[]")].

End Sample.

(** * Properties *)

(** ** Properties of [eventData] *)

Section EventData.
Context {RT : Runtime}.

Lemma prop_insert_eq (d : JsObject) k v : prop (<[k := v]> d) k = v.
Proof. unfold prop. by rewrite lookup_insert_eq. Qed.

Lemma prop_insert_ne (d : JsObject) k k' v :
  k <> k' -> prop (<[k := v]> d) k' = prop d k'.
Proof. intros Hne. unfold prop. by rewrite lookup_insert_ne. Qed.

Lemma prop_delete_ne (d : JsObject) k k' :
  k <> k' -> prop (delete k d) k' = prop d k'.
Proof. intros Hne. unfold prop. by rewrite lookup_delete_ne. Qed.

Lemma prop_delete_eq (d : JsObject) k : prop (delete k d) k = VUndef.
Proof. unfold prop. by rewrite lookup_delete_eq. Qed.

(** A property the route neither assigns nor renames is the body's. *)
Lemma eventData_untouched body files user k :
  ~ In k ["images"; "organizer"; "expectedAttendees"; "budget"; "price";
          "date"; "eventDate"; "time"; "eventTime"] ->
  prop (buildEventData body files user) k = prop body k.
Proof.
  intros Hk. simpl in Hk.
  assert (forall k', In k' ["images"; "organizer"; "expectedAttendees";
            "budget"; "price"; "date"; "eventDate"; "time"; "eventTime"] ->
          k' <> k) as Hne.
  { intros k' Hin ->. apply Hk. exact Hin. }
  unfold buildEventData.
  repeat match goal with
         | |- context [if ?c then _ else _] => destruct c
         end;
    repeat first [ rewrite prop_delete_ne by (apply Hne; simpl; tauto)
                 | rewrite prop_insert_ne by (apply Hne; simpl; tauto) ];
    reflexivity.
Qed.

Lemma eventData_venue body files user :
  prop (buildEventData body files user) "venue" = prop body "venue".
Proof. apply eventData_untouched. simpl. intuition discriminate. Qed.

Ltac eventData_numeric :=
  unfold buildEventData;
  repeat match goal with
         | |- context [if ?c then _ else _] => destruct c
         end;
  repeat first [ rewrite prop_delete_ne by discriminate
               | rewrite prop_insert_eq
               | rewrite prop_insert_ne by discriminate ];
  reflexivity.

Lemma eventData_expectedAttendees body files user :
  prop (buildEventData body files user) "expectedAttendees"
  = VNum (ToNumber (prop body "expectedAttendees")).
Proof. eventData_numeric. Qed.

Lemma eventData_budget body files user :
  prop (buildEventData body files user) "budget"
  = VNum (ToNumber (prop body "budget")).
Proof. eventData_numeric. Qed.

Lemma eventData_price body files user :
  prop (buildEventData body files user) "price"
  = VNum (ToNumber (prop body "price")).
Proof. eventData_numeric. Qed.

(** The renamed properties: a truthy [date] replaces [eventDate]. *)
Lemma eventData_eventDate body files user :
  prop (buildEventData body files user) "eventDate"
  = if truthy (prop body "date") then prop body "date"
    else prop body "eventDate".
Proof.
  unfold buildEventData.
  rewrite !(prop_insert_ne _ _ "date") by discriminate.
  destruct (truthy (prop body "date"));
    repeat match goal with
           | |- context [if ?c then _ else _] => destruct c
           end;
    repeat first [ rewrite prop_delete_ne by discriminate
                 | rewrite prop_insert_eq
                 | rewrite prop_insert_ne by discriminate ];
    reflexivity.
Qed.

Lemma eventData_eventTime body files user :
  prop (buildEventData body files user) "eventTime"
  = if truthy (prop body "time") then prop body "time"
    else prop body "eventTime".
Proof.
  unfold buildEventData.
  destruct (truthy (prop _ "date")).
  - rewrite !(prop_delete_ne _ "date" "time") by discriminate.
    rewrite !(prop_insert_ne _ _ "time") by discriminate.
    destruct (truthy (prop body "time"));
      repeat first [ rewrite prop_delete_ne by discriminate
                   | rewrite prop_insert_eq
                   | rewrite prop_insert_ne by discriminate ];
      reflexivity.
  - rewrite !(prop_insert_ne _ _ "time") by discriminate.
    destruct (truthy (prop body "time"));
      repeat first [ rewrite prop_delete_ne by discriminate
                   | rewrite prop_insert_eq
                   | rewrite prop_insert_ne by discriminate ];
      reflexivity.
Qed.

(** [missingFields] lists, in the order of [requiredFields], the fields whose
    value in [eventData] is falsy. *)
Lemma missingFields_spec eventData field :
  In field (missingFields eventData)
  <-> In field requiredFields /\ truthy (prop eventData field) = false.
Proof.
  unfold missingFields. rewrite filter_In, negb_true_iff. reflexivity.
Qed.

End EventData.

(** ** Comparisons of numbers *)

Lemma SFcompare_swap x y c :
  SFcompare x y = Some c -> SFcompare y x = Some (CompOpp c).
Proof.
  destruct x as [sx|sx| |sx mx ex], y as [sy|sy| |sy my ey]; simpl;
    try discriminate;
    try (destruct sx); try (destruct sy); intros [= <-]; try reflexivity.
  - rewrite (Z.compare_antisym ex ey).
    destruct (ex ?= ey)%Z; simpl; try reflexivity.
    rewrite (Pos.compare_cont_antisym _ _ Eq). simpl.
    rewrite CompOpp_involutive. reflexivity.
  - rewrite (Z.compare_antisym ex ey).
    destruct (ex ?= ey)%Z; simpl; try reflexivity.
    rewrite (Pos.compare_cont_antisym _ _ Eq). reflexivity.
Qed.

(** On numbers that are not [NaN], "not less than" is [>=]. *)
Lemma not_lt_is_ge (x y : float) :
  PrimFloat.ltb x y = false ->
  PrimFloat.is_nan x = false -> PrimFloat.is_nan y = false ->
  PrimFloat.leb y x = true.
Proof.
  unfold PrimFloat.is_nan.
  rewrite FloatAxioms.ltb_spec, FloatAxioms.leb_spec, !FloatAxioms.eqb_spec.
  unfold SFltb, SFleb, SFeqb.
  destruct (SFcompare (Prim2SF x) (Prim2SF x)) eqn:Hx;
    [|destruct (Prim2SF x) as [[]|[]| |]; discriminate].
  destruct (SFcompare (Prim2SF y) (Prim2SF y)) eqn:Hy;
    [|destruct (Prim2SF y) as [[]|[]| |]; discriminate].
  destruct (SFcompare (Prim2SF x) (Prim2SF y)) eqn:Hxy.
  - rewrite (SFcompare_swap _ _ _ Hxy). destruct c1; simpl; congruence.
  - destruct (Prim2SF x), (Prim2SF y); simpl in *; discriminate.
Qed.

Lemma truthy_number_not_nan x :
  truthy (VNum x) = true -> PrimFloat.is_nan x = false.
Proof.
  simpl. rewrite negb_true_iff, orb_false_iff. tauto.
Qed.

(** ** The booking checks, on the route and in the hook *)

Section Booking.
Context {RT : Runtime}.

Lemma castNumber_Value v x : castNumber v = Value x -> ToNumber v = x.
Proof.
  unfold castNumber.
  destruct v as [| |b|y|s|xs|i]; try discriminate;
    try (destruct s; try discriminate);
    destruct (PrimFloat.is_nan _); congruence.
Qed.

Lemma findById_cast {D} (id_of : D -> ObjectId) coll v i :
  castObjectId v = Value i ->
  findById id_of coll v = findById id_of coll (VId i).
Proof. intros Hc. unfold findById. rewrite Hc. reflexivity. Qed.

(** What it takes for the route's checks to pass. *)
Lemma routeBookingChecks_passes st eventData venue :
  routeBookingChecks st eventData = Next venue
  <-> findById venue_id (venues st) (prop eventData "venue")
        = Next (Some venue)
      /\ venue_availability venue = true
      /\ js_gt (ToNumber (prop eventData "expectedAttendees"))
               (venue_capacity venue) = false
      /\ js_lt (ToNumber (prop eventData "budget"))
               (PrimFloat.mul (venue_pricePerDay venue) PrimFloat.one)
         = false.
Proof.
  unfold routeBookingChecks.
  destruct (findById venue_id (venues st) (prop eventData "venue"))
    as [[v|]| |]; simpl;
    try (split; [discriminate | intros [? _]; discriminate]).
  destruct (venue_availability v) eqn:Ha; simpl.
  - destruct (js_gt _ (venue_capacity v)) eqn:Hc.
    + split; [discriminate|]. intros ([= <-] & _ & Hc' & _). congruence.
    + destruct (js_lt _ _) eqn:Hb.
      * split; [discriminate|]. intros ([= <-] & _ & _ & Hb'). congruence.
      * split.
        -- intros [= <-]. auto.
        -- intros ([= <-] & _). reflexivity.
  - split; [discriminate|]. intros ([= <-] & Ha' & _). congruence.
Qed.

(** What it takes for the hook to pass. *)
Lemma preSave_passes st this :
  preSave st this = Next tt
  <-> exists venue,
      findById venue_id (venues st) (VId (event_venue this))
        = Next (Some venue)
      /\ venue_availability venue = true
      /\ js_gt (event_expectedAttendees this) (venue_capacity venue) = false
      /\ js_lt (event_budget this)
               (PrimFloat.mul (venue_pricePerDay venue) PrimFloat.one)
         = false.
Proof.
  unfold preSave.
  destruct (findById venue_id (venues st) (VId (event_venue this)))
    as [[v|]| |]; simpl;
    try (split; [discriminate | intros (? & ? & _); discriminate]).
  destruct (venue_availability v) eqn:Ha; simpl.
  - destruct (js_gt _ (venue_capacity v)) eqn:Hc.
    + split; [discriminate|]. intros (? & [= <-] & _ & Hc' & _). congruence.
    + destruct (js_lt _ _) eqn:Hb.
      * split; [discriminate|].
        intros (? & [= <-] & _ & _ & Hb'). congruence.
      * split; [|reflexivity]. intros _. exists v. auto.
  - split; [discriminate|]. intros (? & [= <-] & Ha' & _). congruence.
Qed.

(** The hook's own refusals: the error message renders both values. *)
Lemma preSave_capacity st this venue :
  findById venue_id (venues st) (VId (event_venue this)) = Next (Some venue) ->
  venue_availability venue = true ->
  js_gt (event_expectedAttendees this) (venue_capacity venue) = true ->
  preSave st this
  = Throw (JsError
      ("Expected attendees (" +:+ NumberToString (event_expectedAttendees this)
       +:+ ") exceed venue capacity ("
       +:+ NumberToString (venue_capacity venue) +:+ ")")).
Proof.
  intros Hv Ha Hc. unfold preSave. rewrite Hv. simpl. rewrite Ha. simpl.
  rewrite Hc. reflexivity.
Qed.

Lemma preSave_budget st this venue :
  findById venue_id (venues st) (VId (event_venue this)) = Next (Some venue) ->
  venue_availability venue = true ->
  js_gt (event_expectedAttendees this) (venue_capacity venue) = false ->
  js_lt (event_budget this)
        (PrimFloat.mul (venue_pricePerDay venue) PrimFloat.one) = true ->
  preSave st this
  = Throw (JsError
      ("Budget (" +:+ NumberToString (event_budget this)
       +:+ ") is insufficient for venue cost ("
       +:+ NumberToString
             (PrimFloat.mul (venue_pricePerDay venue) PrimFloat.one)
       +:+ ")")).
Proof.
  intros Hv Ha Hc Hb. unfold preSave. rewrite Hv. simpl. rewrite Ha. simpl.
  rewrite Hc, Hb. reflexivity.
Qed.

(** A response of the route's checks is a 404 or a 400. *)
Lemma routeBookingChecks_sends st eventData r :
  routeBookingChecks st eventData = Send r -> status r = 404 \/ status r = 400.
Proof.
  unfold routeBookingChecks, findById.
  destruct (castObjectId _); simpl; try discriminate;
    try (intros [= <-]; simpl; tauto).
  destruct (find _ (venues st)) as [v|]; simpl;
    [|intros [= <-]; simpl; tauto].
  repeat match goal with
         | |- context [if ?c then _ else _] => destruct c
         end; try discriminate; intros [= <-]; simpl; tauto.
Qed.

(** The hook never answers the request itself: it passes or throws. *)
Lemma preSave_outcome st this :
  preSave st this = Next tt \/ exists error, preSave st this = Throw error.
Proof.
  unfold preSave, findById. simpl.
  destruct (find _ (venues st)) as [v|]; simpl; [|eauto].
  repeat match goal with
         | |- context [if ?c then _ else _] => destruct c
         end; eauto.
Qed.

(** The paths of a constructed document that the checks read. *)
Lemma newEvent_paths eventData id now e :
  newEvent eventData id now = Some e ->
  castObjectId (prop eventData "venue") = Value (event_venue e)
  /\ ToNumber (prop eventData "expectedAttendees") = event_expectedAttendees e
  /\ ToNumber (prop eventData "budget") = event_budget e.
Proof.
  unfold newEvent. intros H.
  repeat match type of H with
         | (mbind _ ?m) = Some _ =>
             let E := fresh "E" in
             destruct m eqn:E; simpl in H; [|discriminate]
         | (?m ≫= _) = Some _ =>
             let E := fresh "E" in
             destruct m eqn:E; simpl in H; [|discriminate]
         end.
  injection H as <-. simpl.
  repeat match goal with
         | E : required ?c = Some _ |- _ =>
             destruct c eqn:?; simpl in E; try discriminate;
             injection E as ->
         end.
  repeat split; try assumption; apply castNumber_Value; assumption.
Qed.

End Booking.

(** ** Event creation *)

Section Creation.
Context {RT : Runtime}.

Lemma no_missing_fields_length eventData :
  missingFields eventData = [] ->
  (0 <? Z.of_nat (length (missingFields eventData))) = false.
Proof. intros ->. reflexivity. Qed.

Lemma some_missing_fields_length eventData :
  missingFields eventData <> [] ->
  (0 <? Z.of_nat (length (missingFields eventData))) = true.
Proof.
  destruct (missingFields eventData); [congruence|]. intros _.
  apply Z.ltb_lt. simpl. lia.
Qed.

(** The ways [POST /events] can end: the validation error, a response of
    the booking checks, an exception, or a created document that passed the
    route's checks and the hook. *)
Lemma postEvents_created st user body files newId now e :
  fst (postEvents st user body files newId now) = json 201 (EventJson e) ->
  missingFields (buildEventData body files user) = []
  /\ (exists venue,
        routeBookingChecks st (buildEventData body files user) = Next venue)
  /\ newEvent (buildEventData body files user) newId now = Some e
  /\ preSave st e = Next tt
  /\ snd (postEvents st user body files newId now)
     = set_events st (insertOne (events st) e).
Proof.
  unfold postEvents.
  generalize (buildEventData body files user) as eventData.
  intros eventData H.
  destruct (missingFields eventData) as [|f fs] eqn:Hm.
  - simpl in H |- *.
    destruct (routeBookingChecks st eventData) as [v| |] eqn:Hr;
      simpl in H |- *; try discriminate.
    + unfold createEventDoc in H |- *.
      destruct (newEvent eventData newId now) as [e'|]; [|discriminate].
      destruct (validateEvent e'); [|discriminate].
      destruct (preSave_outcome st e') as [Hp|[error Hp]]; rewrite Hp in H |- *;
        simpl in H |- *; [|discriminate].
      injection H as <-. eauto 10.
    + subst r. apply routeBookingChecks_sends in Hr. simpl in Hr. lia.
  - discriminate.
Qed.

(** C1.  A creation request that passes the required-field check and names
    an existing, available venue whose capacity is below the expected
    attendance is answered 400 "Capacity exceeded"; the detail renders the
    expected attendance and the capacity, and the store is left as it was
    (no event is created). *)
Theorem capacity_exceeded_rejected st user body files newId now venue :
  missingFields (buildEventData body files user) = [] ->
  findById venue_id (venues st) (prop body "venue") = Next (Some venue) ->
  venue_availability venue = true ->
  js_gt (ToNumber (prop body "expectedAttendees")) (venue_capacity venue)
  = true ->
  postEvents st user body files newId now
  = (json 400
       (ErrorJson "Capacity exceeded"
          (Some (Text
            ("Expected attendees ("
             +:+ NumberToString (ToNumber (prop body "expectedAttendees"))
             +:+ ") exceed venue capacity ("
             +:+ NumberToString (venue_capacity venue) +:+ ")")))),
     st).
Proof.
  intros Hm Hv Ha Hc. unfold postEvents.
  rewrite (no_missing_fields_length _ Hm).
  unfold routeBookingChecks.
  rewrite eventData_venue, Hv. simpl. rewrite Ha. simpl.
  rewrite eventData_expectedAttendees. simpl. rewrite Hc. reflexivity.
Qed.

(** C2.  With the duration fixed at one day, a request that passes the
    earlier checks and whose budget is below [pricePerDay * 1] is answered
    400 "Insufficient budget", the detail rendering the budget and the venue
    cost, and nothing is stored; and whenever an event is created, its
    budget is not below the cost of the venue it names: [budget >= cost]. *)
Theorem insufficient_budget_rejected st user body files newId now :
  (forall venue,
     missingFields (buildEventData body files user) = [] ->
     findById venue_id (venues st) (prop body "venue") = Next (Some venue) ->
     venue_availability venue = true ->
     js_gt (ToNumber (prop body "expectedAttendees")) (venue_capacity venue)
     = false ->
     js_lt (ToNumber (prop body "budget"))
           (PrimFloat.mul (venue_pricePerDay venue) PrimFloat.one) = true ->
     postEvents st user body files newId now
     = (json 400
          (ErrorJson "Insufficient budget"
             (Some (Text
               ("Budget (" +:+ NumberToString (ToNumber (prop body "budget"))
                +:+ ") is insufficient for venue cost ("
                +:+ NumberToString
                      (PrimFloat.mul (venue_pricePerDay venue) PrimFloat.one)
                +:+ ")")))),
        st))
  /\ (forall e,
        fst (postEvents st user body files newId now)
        = json 201 (EventJson e) ->
        exists venue,
          findById venue_id (venues st) (prop body "venue")
          = Next (Some venue)
          /\ event_budget e = ToNumber (prop body "budget")
          /\ js_lt (event_budget e)
                   (PrimFloat.mul (venue_pricePerDay venue) PrimFloat.one)
             = false
          /\ (PrimFloat.is_nan
                (PrimFloat.mul (venue_pricePerDay venue) PrimFloat.one)
              = false ->
              PrimFloat.leb
                (PrimFloat.mul (venue_pricePerDay venue) PrimFloat.one)
                (event_budget e) = true)).
Proof.
  split.
  - intros venue Hm Hv Ha Hc Hb. unfold postEvents.
    rewrite (no_missing_fields_length _ Hm).
    unfold routeBookingChecks.
    rewrite eventData_venue, Hv. simpl. rewrite Ha. simpl.
    rewrite eventData_expectedAttendees, eventData_budget. simpl.
    rewrite Hc, Hb. reflexivity.
  - intros e He.
    destruct (postEvents_created _ _ _ _ _ _ _ He)
      as (Hm & [venue Hr] & Hn & _ & _).
    apply routeBookingChecks_passes in Hr.
    destruct Hr as (Hv & _ & _ & Hb).
    destruct (newEvent_paths _ _ _ _ Hn) as (_ & _ & Hbudget).
    rewrite eventData_venue in Hv. rewrite eventData_budget in Hb, Hbudget.
    simpl in Hb, Hbudget.
    exists venue. rewrite <- Hbudget. repeat split; try assumption.
    intros Hcost. apply not_lt_is_ge; [exact Hb| |exact Hcost].
    apply truthy_number_not_nan.
    rewrite <- eventData_budget with (files := files) (user := user).
    assert (~ In "budget" (missingFields (buildEventData body files user)))
      as Hnot by (rewrite Hm; simpl; tauto).
    rewrite missingFields_spec in Hnot.
    destruct (truthy _); [reflexivity|].
    exfalso. apply Hnot. split; [|reflexivity]. simpl. tauto.
Qed.

(** C8.  On a document constructed from [eventData], the route's
    venue-existence, availability, capacity and budget checks pass exactly
    when the hook's checks pass. *)
Theorem route_checks_agree_with_hook st eventData id now e :
  newEvent eventData id now = Some e ->
  (exists venue, routeBookingChecks st eventData = Next venue)
  <-> preSave st e = Next tt.
Proof.
  intros Hn. destruct (newEvent_paths _ _ _ _ Hn) as (Hv & Ha & Hb).
  rewrite preSave_passes. rewrite <- Ha, <- Hb.
  rewrite <- (findById_cast _ _ _ _ Hv).
  split.
  - intros [venue Hr]. exists venue.
    apply routeBookingChecks_passes. exact Hr.
  - intros [venue Hr]. exists venue.
    apply routeBookingChecks_passes. exact Hr.
Qed.

End Creation.

(** ** Saving a loaded event *)

Section Saving.
Context {RT : Runtime}.

Lemma includes_In (i : ObjectId) (ids : list ObjectId) :
  existsb (eqb_id i) ids = true <-> In i ids.
Proof.
  rewrite existsb_exists. unfold eqb_id. split.
  - intros (x & Hin & Heq). apply String.eqb_eq in Heq. congruence.
  - intros Hin. exists i. split; [exact Hin | apply String.eqb_refl].
Qed.

(** After [save], the document found under the id is the saved one. *)
Lemma find_updateById {D} (id_of : D -> ObjectId) coll d i :
  eqb_id (id_of d) i = true ->
  is_Some (find (fun x => eqb_id (id_of x) i) coll) ->
  find (fun x => eqb_id (id_of x) i) (updateById id_of coll d) = Some d.
Proof.
  intros Hd. unfold updateById.
  induction coll as [|x coll IH]; simpl; intros Hsome.
  - destruct Hsome as [? [=]].
  - destruct (eqb_id (id_of x) (id_of d)) eqn:Hxd.
    + rewrite Hd. reflexivity.
    + destruct (eqb_id (id_of x) i) eqn:Hxi.
      * unfold eqb_id in *. apply String.eqb_eq in Hxi, Hd.
        rewrite Hxi, <- Hd, String.eqb_refl in Hxd. discriminate.
      * apply IH. exact Hsome.
Qed.

Lemma findById_found {D} (id_of : D -> ObjectId) coll v d :
  findById id_of coll v = Next (Some d) ->
  exists i, castObjectId v = Value i
            /\ find (fun x => eqb_id (id_of x) i) coll = Some d
            /\ eqb_id (id_of d) i = true.
Proof.
  unfold findById. destruct (castObjectId v) as [i| | |]; try discriminate.
  intros [= Hf]. exists i. repeat split; [exact Hf|].
  apply find_some in Hf. tauto.
Qed.

Lemma findById_updateById {D} (id_of : D -> ObjectId) coll v d d' :
  findById id_of coll v = Next (Some d) -> id_of d' = id_of d ->
  findById id_of (updateById id_of coll d') v = Next (Some d').
Proof.
  intros Hf Hid. destruct (findById_found _ _ _ _ Hf) as (i & Hc & Hfind & Hi).
  unfold findById. rewrite Hc. f_equal.
  apply find_updateById; [rewrite Hid; exact Hi | rewrite Hfind; eauto].
Qed.

(** [save] either writes the document, having validated it and run the
    hook, or throws and writes nothing. *)
Lemma saveEvent_outcome st castOk e :
  (castOk = true /\ validateEvent e = true /\ preSave st e = Next tt
   /\ saveEvent st castOk e
      = Next (set_events st (updateById event_id (events st) e)))
  \/ (exists error, saveEvent st castOk e = Throw error).
Proof.
  unfold saveEvent.
  destruct castOk; simpl; [|eauto].
  destruct (validateEvent e); [|eauto].
  destruct (preSave_outcome st e) as [Hp|[error Hp]]; rewrite Hp; simpl; eauto.
Qed.

Lemma saveEvent_hook_fails st castOk e :
  preSave st e <> Next tt -> exists error, saveEvent st castOk e = Throw error.
Proof.
  intros Hp. destruct (saveEvent_outcome st castOk e) as [(_ & _ & H & _)|H];
    [contradiction | exact H].
Qed.

(** The hook reads the venue, the expected attendance and the budget, which
    none of the assignments below touches. *)
Lemma preSave_set_event_status st e s :
  preSave st (set_event_status e s) = preSave st e.
Proof. reflexivity. Qed.

Lemma preSave_set_event_venueRequest st e r :
  preSave st (set_event_venueRequest e r) = preSave st e.
Proof. reflexivity. Qed.

Lemma preSave_set_event_reviews st e rs :
  preSave st (set_event_reviews e rs) = preSave st e.
Proof. reflexivity. Qed.

(** C3.  When the event exists and the actor is not both a [venue_owner]
    and the owner of the event's venue (the venue's id is in the actor's
    [venues] list), the transition is answered 403 and the store, and with
    it the event and its [venueRequest.status], is unchanged. *)
Theorem non_owner_forbidden st user id body now event :
  findById event_id (events st) (VStr id) = Next (Some event) ->
  ~ (user_role user = "venue_owner"
     /\ In (event_venue event) (user_venues user)) ->
  patchVenueRequest st user id body now
  = (json 403 (ErrorJson "Unauthorized" None), st).
Proof.
  intros Hf Hnot. unfold patchVenueRequest. rewrite Hf. simpl.
  destruct (String.eqb (user_role user) "venue_owner") eqn:Hrole; simpl;
    [|reflexivity].
  destruct (existsb (eqb_id (event_venue event)) (user_venues user)) eqn:Hin;
    simpl; [|reflexivity].
  exfalso. apply Hnot. split.
  - apply String.eqb_eq. exact Hrole.
  - apply includes_In. exact Hin.
Qed.

(** C4.  A transition by the owning [venue_owner] with action [approved] or
    [rejected] and a response message that is answered 200 has stored an
    event whose [venueRequest.status] is the action, whose
    [venueRequest.response] is the message, whose [venueRequest.respondedAt]
    is the current time and whose [status] is the same outcome. *)
Theorem venue_request_transition st user id body now event action message :
  findById event_id (events st) (VStr id) = Next (Some event) ->
  user_role user = "venue_owner" ->
  In (event_venue event) (user_venues user) ->
  prop body "action" = VStr action ->
  action = "approved" \/ action = "rejected" ->
  prop body "response" = VStr message ->
  status (fst (patchVenueRequest st user id body now)) = 200 ->
  exists event',
    fst (patchVenueRequest st user id body now)
    = json 200 (SuccessEventJson event')
    /\ findById event_id (events (snd (patchVenueRequest st user id body now)))
         (VStr id) = Next (Some event')
    /\ vr_status (event_venueRequest event') = Some action
    /\ vr_response (event_venueRequest event') = Some message
    /\ vr_respondedAt (event_venueRequest event') = Some now
    /\ event_status event' = Some action.
Proof.
  intros Hf Hrole Hin Ha Hact Hr. unfold patchVenueRequest.
  rewrite Hf, Ha, Hr, Hrole. simpl.
  apply includes_In in Hin. rewrite Hin. simpl.
  match goal with
  | |- context [saveEvent st ?ok ?e] =>
      destruct (saveEvent_outcome st ok e) as [(_ & _ & _ & Hs)|[error Hs]];
        rewrite Hs; simpl
  end.
  - intros _. eexists. split; [reflexivity|]. split.
    + eapply findById_updateById; [exact Hf | reflexivity].
    + simpl. repeat split.
      destruct Hact as [-> | ->]; reflexivity.
  - discriminate.
Qed.

(** One of the hook's four checks failing is the hook not passing. *)
Lemma preSave_check_fails st event :
  findById venue_id (venues st) (VId (event_venue event)) = Next None
  \/ (exists venue,
        findById venue_id (venues st) (VId (event_venue event))
        = Next (Some venue)
        /\ (venue_availability venue = false
            \/ js_gt (event_expectedAttendees event) (venue_capacity venue)
               = true
            \/ js_lt (event_budget event)
                     (PrimFloat.mul (venue_pricePerDay venue) PrimFloat.one)
               = true)) ->
  preSave st event <> Next tt.
Proof.
  intros Hfails Hpasses. apply preSave_passes in Hpasses.
  destruct Hpasses as (venue & Hv & Ha & Hc & Hb).
  destruct Hfails as [Hnone | (venue' & Hv' & Hcheck)]; [congruence|].
  assert (venue' = venue) as -> by congruence.
  destruct Hcheck as [H | [H | H]]; congruence.
Qed.

(** C10.  Every save of an event runs the four checks against the venues
    the store holds then.  Let one of them fail for an event: its venue
    does not exist, or is marked unavailable, or has a capacity below the
    expected attendance, or costs more for the day than the budget.  Then a
    status update, a review append and a venue-request decision on that
    event each fail and leave the store unchanged; and so does its
    creation: [EventModel.create] throws, and [POST /events] answers without
    a 201 and stores nothing. *)
Theorem every_save_reruns_checks st user id body files newId now event :
  findById venue_id (venues st) (VId (event_venue event)) = Next None
  \/ (exists venue,
        findById venue_id (venues st) (VId (event_venue event))
        = Next (Some venue)
        /\ (venue_availability venue = false
            \/ js_gt (event_expectedAttendees event) (venue_capacity venue)
               = true
            \/ js_lt (event_budget event)
                     (PrimFloat.mul (venue_pricePerDay venue) PrimFloat.one)
               = true)) ->
  (findById event_id (events st) (VStr id) = Next (Some event) ->
   (status (fst (putEventStatus st user id body)) <> 200
    /\ snd (putEventStatus st user id body) = st)
   /\ (status (fst (postEventReview st user id body now)) <> 200
       /\ snd (postEventReview st user id body now) = st)
   /\ (status (fst (patchVenueRequest st user id body now)) <> 200
       /\ snd (patchVenueRequest st user id body now) = st))
  /\ (forall eventData,
        newEvent eventData newId now = Some event ->
        exists error, createEventDoc st eventData newId now = Throw error)
  /\ (newEvent (buildEventData body files user) newId now = Some event ->
      status (fst (postEvents st user body files newId now)) <> 201
      /\ snd (postEvents st user body files newId now) = st).
Proof.
  intros Hfails. apply preSave_check_fails in Hfails. rename Hfails into Hp.
  repeat apply conj.
  - intros Hf.
    assert (forall ok e, preSave st e = preSave st event ->
              exists error, saveEvent st ok e = Throw error) as Hsave.
    { intros ok e He. apply saveEvent_hook_fails. rewrite He. exact Hp. }
    repeat apply conj.
    all: unfold putEventStatus, postEventReview, patchVenueRequest;
      rewrite Hf; simpl.
    all: repeat match goal with
                | |- context [find ?f (venues ?s)] =>
                    destruct (find f (venues s)); simpl
                | |- context [if ?c then _ else _] => destruct c; simpl
                end.
    all: try (match goal with
              | |- context [saveEvent _ ?ok ?e] =>
                  destruct (Hsave ok e eq_refl) as [error ->]; simpl
              end).
    all: first [discriminate | reflexivity].
  - intros eventData Hnew. unfold createEventDoc. rewrite Hnew.
    destruct (validateEvent event); [|eauto].
    destruct (preSave_outcome st event) as [Hpass | [error Hthrow]];
      [contradiction|].
    rewrite Hthrow. simpl. eauto.
  - unfold postEvents.
    generalize (buildEventData body files user) as eventData.
    intros eventData Hnew.
    destruct (0 <? _); simpl; [split; [discriminate | reflexivity]|].
    destruct (routeBookingChecks st eventData) as [venue|r|error] eqn:Hr;
      simpl.
    + unfold createEventDoc. rewrite Hnew.
      destruct (validateEvent event); simpl;
        [|split; [discriminate | reflexivity]].
      destruct (preSave_outcome st event) as [Hpass | [error Hthrow]];
        [contradiction|].
      rewrite Hthrow. simpl. split; [discriminate | reflexivity].
    + apply routeBookingChecks_sends in Hr.
      split; [lia | reflexivity].
    + split; [discriminate | reflexivity].
Qed.

End Saving.

(** ** Sessions *)

Section SessionProperties.
Context {RT : Runtime}.

(** C5, as the code has it.  For a request whose [Authorization] header
    carries a bearer token: if the token's signature is not the one the
    process-wide secret produces and decoding the token does not throw, the
    middleware answers 401 "Invalid token"; if the signature is valid, the
    token has no [nbf] claim or one that the clock has reached, and the
    expiry has passed, it answers 401 "Token expired".  Whenever the
    signature is not the secret's, or is valid with a passed expiry, the
    middleware sends a 401 or a 500 itself: [next] is not called and no user
    is attached to the request. *)
Theorem auth_rejects_bad_tokens env st header token now :
  String.prefix "Bearer " header = true ->
  nth_error (split_on " " header) 1 = Some token ->
  token <> "" ->
  (jwt_signed_with token (jwtSecret env) = false ->
   (jwt_decode token = None -> jwt_payload_unparsable token = false) ->
   auth env st (Some header) now
   = Send (json 401 (ErrorJson "Invalid token" None)))
  /\ (forall payload exp,
        jwt_signed_with token (jwtSecret env) = true ->
        jwt_decode token = Some payload ->
        claim_nbf payload = NoDate
        \/ (exists nbf, claim_nbf payload = Seconds nbf
                        /\ nbf <= clockTimestamp now) ->
        claim_exp payload = Seconds exp ->
        exp <= clockTimestamp now ->
        auth env st (Some header) now
        = Send (json 401 (ErrorJson "Token expired" None)))
  /\ (jwt_signed_with token (jwtSecret env) = false
      \/ (exists payload exp,
            jwt_decode token = Some payload
            /\ claim_exp payload = Seconds exp
            /\ exp <= clockTimestamp now) ->
      exists response,
        auth env st (Some header) now = Send response
        /\ (status response = 401 \/ status response = 500)).
Proof.
  intros Hprefix Hnth Htoken.
  assert (String.eqb header "" = false) as Hne.
  { destruct header; [discriminate Hprefix | reflexivity]. }
  unfold auth. rewrite Hne, Hprefix, Hnth. simpl.
  destruct token as [|c token]; [congruence|].
  unfold jwt_verify. repeat apply conj.
  - intros Hsig Hparse. rewrite Hsig. simpl.
    destruct (jwt_decode (String c token)); [reflexivity|].
    rewrite Hparse by reflexivity. reflexivity.
  - intros payload exp Hsig Hdec Hnbf Hexp Hle.
    rewrite Hsig, Hdec, Hexp. simpl.
    apply Z.leb_le in Hle. rewrite Hle.
    destruct Hnbf as [-> | (nbf & -> & Hreached)]; [reflexivity|].
    apply Z.ltb_ge in Hreached. rewrite Hreached. reflexivity.
  - intros [Hsig | (payload & exp & Hdec & Hexp & Hle)].
    + rewrite Hsig. simpl.
      destruct (jwt_decode (String c token)); simpl; [eauto|].
      destruct (jwt_payload_unparsable (String c token)); simpl; eauto.
    + rewrite Hdec, Hexp. apply Z.leb_le in Hle. rewrite Hle.
      destruct (jwt_signed_with (String c token) (jwtSecret env)); simpl;
        [|eauto].
      destruct (claim_nbf payload) as [|nbf|]; simpl; eauto.
      destruct (clockTimestamp now <? nbf); simpl; eauto.
Qed.

Lemma find_snoc_None {A} (f : A -> bool) l x :
  find f l = None -> find f (l ++ [x])%list = if f x then Some x else None.
Proof.
  induction l as [|y l IH]; simpl; [reflexivity|].
  destruct (f y); [discriminate | exact IH].
Qed.

(** What a successful registration has checked and stored. *)
Lemma register_created env st body salt newId now token user :
  fst (register env st body salt newId now)
  = json 201 (SessionJson token user) ->
  exists stored password,
    findOneByEmail (users st) (prop body "email") = Next None
    /\ prop body "password" = VStr password
    /\ newUser (prop body "name") (prop body "email") (prop body "role")
         (bcrypt_hash password salt) newId = Some stored
    /\ user = without_password stored
    /\ snd (register env st body salt newId now)
       = set_users st (insertOne (users st) stored).
Proof.
  unfold register, findOneByEmail.
  destruct (castString (prop body "email")); simpl; try discriminate.
  all: destruct (find _ (users st)); simpl; try discriminate.
  all: destruct (prop body "password") as [| |b|x|password|xs|i]; simpl;
    try discriminate.
  all: destruct (newUser _ _ _ _ _) as [stored|] eqn:Hnew; simpl;
    [|discriminate].
  all: destruct (validateUser stored); simpl; [|discriminate].
  all: intros [= <- <-]; eauto 10.
Qed.

(** C9, as the code has it.  For credentials whose email and password are
    non-empty strings: when registration succeeds, logging in with the same
    credentials succeeds, and, the token library round-tripping the token
    it issues, the login token verifies under the process-wide secret, until
    it expires, to a payload whose [userId] is the registered user's id. *)
Theorem register_then_login env st body salt newId now1 now2
  email password token user :
  prop body "email" = VStr email -> email <> "" ->
  prop body "password" = VStr password -> password <> "" ->
  fst (register env st body salt newId now1)
  = json 201 (SessionJson token user) ->
  bcrypt_compare password (bcrypt_hash password salt) = true ->
  jwt_decode (jwt_encode (sessionPayload user now2) (jwtSecret env))
  = Some (sessionPayload user now2) ->
  jwt_signed_with (jwt_encode (sessionPayload user now2) (jwtSecret env))
    (jwtSecret env) = true ->
  user_id user = newId
  /\ exists token2,
      login env (snd (register env st body salt newId now1)) body now2
      = (json 200 (SessionJson token2 user),
         snd (register env st body salt newId now1))
      /\ forall now3,
          clockTimestamp now3 < clockTimestamp now2 + 7 * 24 * 60 * 60 ->
          exists decoded,
            jwt_verify token2 (jwtSecret env) now3 = Next decoded
            /\ claim_userId decoded = VStr (user_id user).
Proof.
  intros He Hene Hp Hpne Hreg Hbcrypt Hdec Hsig.
  destruct (register_created _ _ _ _ _ _ _ _ Hreg)
    as (stored & password' & Hnone & Hp' & Hnew & -> & ->).
  rewrite Hp in Hp'. injection Hp' as <-.
  rewrite He in Hnone, Hnew. unfold newUser in Hnew. simpl in Hnew.
  destruct (optional (castString (prop body "name"))) as [name|];
    simpl in Hnew; [|discriminate].
  destruct (required (castString (prop body "role"))) as [role|];
    simpl in Hnew; [|discriminate].
  injection Hnew as <-. simpl in *.
  split; [reflexivity|].
  unfold login. rewrite He, Hp. simpl.
  assert (String.eqb email "" = false) as ->
    by (apply String.eqb_neq; exact Hene).
  assert (String.eqb password "" = false) as ->
    by (apply String.eqb_neq; exact Hpne).
  simpl. unfold insertOne.
  injection Hnone as Hnone. rewrite (find_snoc_None _ _ _ Hnone). simpl.
  rewrite String.eqb_refl. simpl. rewrite Hbcrypt. simpl.
  eexists. split; [reflexivity|].
  intros now3 Hfresh. unfold jwt_verify, jwt_sign.
  unfold sessionPayload in *. simpl in *.
  rewrite Hdec, Hsig. simpl.
  apply Z.leb_gt in Hfresh. rewrite Hfresh.
  eexists. split; reflexivity.
Qed.

End SessionProperties.

(** ** Venue reviews *)

Section Reviews.
Context {RT : Runtime}.

Lemma totalRating_fold reviews acc :
  fold_left
    (fun sum review => PrimFloat.add sum (ratingOperand (rev_rating review)))
    reviews acc
  = fold_left PrimFloat.add
      (map (fun review => ratingOperand (rev_rating review)) reviews) acc.
Proof.
  revert acc. induction reviews as [|r reviews IH]; intros acc; simpl;
    [reflexivity | apply IH].
Qed.

Lemma rated_operands reviews rs :
  map rev_rating reviews = map Rated rs ->
  map (fun review => ratingOperand (rev_rating review)) reviews = rs.
Proof.
  revert rs. induction reviews as [|r reviews IH]; intros [|x rs]; simpl;
    try discriminate; [reflexivity|].
  intros [= Hr Hrs]. rewrite Hr. simpl. f_equal. apply IH. exact Hrs.
Qed.

(** C7.  A venue holds reviews rated r1..rN; a review whose rating casts to
    the number r is appended and the request is answered 200.  Then the
    venue stored under the id holds the N+1 ratings and its [rating] is
    (0 + r1 + ... + rN + r) / (N + 1), the sum taken from the left and the
    quotient in floating point. *)
Theorem venue_rating_is_mean st user id body now venue rs r :
  findById venue_id (venues st) (VStr id) = Next (Some venue) ->
  map rev_rating (venue_reviews venue) = map Rated rs ->
  castNumber (prop body "rating") = Value r ->
  status (fst (postVenueReview st user id body now)) = 200 ->
  exists venue',
    findById venue_id (venues (snd (postVenueReview st user id body now)))
      (VStr id) = Next (Some venue')
    /\ map rev_rating (venue_reviews venue') = map Rated (rs ++ [r])%list
    /\ venue_rating venue'
       = PrimFloat.div
           (fold_left PrimFloat.add (rs ++ [r])%list PrimFloat.zero)
           (PrimFloat.of_uint63 (Uint63.of_Z (Z.of_nat (length rs) + 1))).
Proof.
  intros Hf Hrs Hr. unfold postVenueReview. rewrite Hf. simpl.
  unfold newReview. rewrite Hr. simpl.
  assert (totalRating
            (venue_reviews venue ++
             [{| rev_user := user_id user; rev_rating := Rated r;
                 rev_comment :=
                   default None (optional (castString (prop body "comment")));
                 rev_date := now |}])%list
          = fold_left PrimFloat.add (rs ++ [r])%list PrimFloat.zero) as Htotal.
  { unfold totalRating. rewrite totalRating_fold, map_app.
    rewrite (rated_operands _ _ Hrs). reflexivity. }
  assert (forall x : Review,
            length_number (venue_reviews venue ++ [x])%list
            = PrimFloat.of_uint63
                (Uint63.of_Z (Z.of_nat (length rs) + 1))) as Hlen.
  { intros x. unfold length_number. rewrite length_app. simpl.
    replace (length (venue_reviews venue)) with (length rs).
    - do 2 f_equal. lia.
    - rewrite <- (length_map Rated rs), <- Hrs, length_map. reflexivity. }
  rewrite Htotal, Hlen. unfold saveVenue.
  destruct (PrimFloat.is_nan _) eqn:Hnan; simpl.
  - rewrite andb_false_r. simpl. discriminate.
  - rewrite andb_true_r.
    destruct (bool_decide _ && validateVenue _); simpl; [|discriminate].
    intros _. eexists. split.
    + eapply findById_updateById; [exact Hf | reflexivity].
    + simpl. split; [|reflexivity].
      rewrite map_app, Hrs, map_app. reflexivity.
Qed.

End Reviews.

(** ** The required-field check *)

Section RequiredFields.
Context {RT : Runtime}.

Lemma nan_is_falsy : truthy (VNum (ToNumber VUndef)) = false.
Proof. reflexivity. Qed.

(** X20.  If one of the nine fields is absent from the payload (for the
    event date and time, under either of their two names), the request is
    answered 400 "Missing required fields", the detail lists
    [missingFields], which names that field, and the answer is the same
    whatever the store holds: the check precedes the venue lookup. *)
Theorem missing_fields_reported st user body files newId now field :
  In field requiredFields ->
  prop body field = VUndef ->
  (field = "eventDate" -> prop body "date" = VUndef) ->
  (field = "eventTime" -> prop body "time" = VUndef) ->
  In field (missingFields (buildEventData body files user))
  /\ postEvents st user body files newId now
     = (json 400
          (ErrorJson "Missing required fields"
             (Some (Text
               ("Please fill in the following fields: "
                +:+ String.concat ", "
                      (missingFields (buildEventData body files user)))))),
        st).
Proof.
  intros Hin Hfield Hdate Htime.
  assert (In field (missingFields (buildEventData body files user))) as Hm.
  { apply missingFields_spec. split; [exact Hin|].
    simpl in Hin.
    destruct Hin as [<-|[<-|[<-|[<-|[<-|[<-|[<-|[<-|[<-|[]]]]]]]]]].
    - rewrite eventData_untouched, Hfield by (simpl; intuition discriminate).
      reflexivity.
    - rewrite eventData_untouched, Hfield by (simpl; intuition discriminate).
      reflexivity.
    - rewrite eventData_untouched, Hfield by (simpl; intuition discriminate).
      reflexivity.
    - rewrite eventData_eventDate, (Hdate eq_refl), Hfield. reflexivity.
    - rewrite eventData_eventTime, (Htime eq_refl), Hfield. reflexivity.
    - rewrite eventData_expectedAttendees, Hfield. apply nan_is_falsy.
    - rewrite eventData_budget, Hfield. apply nan_is_falsy.
    - rewrite eventData_untouched, Hfield by (simpl; intuition discriminate).
      reflexivity.
    - rewrite eventData_price, Hfield. apply nan_is_falsy. }
  split; [exact Hm|].
  unfold postEvents.
  rewrite some_missing_fields_length; [reflexivity|].
  intros Hnil. rewrite Hnil in Hm. exact Hm.
Qed.

End RequiredFields.

(** ** The properties at the sample store *)

(** The specification's scenario: 150 attendees for the hall of 100. *)
Lemma capacity_exceeded_witness :
  postEvents Sample.store Sample.organizer
    (<["expectedAttendees" := VStr "150"]> Sample.form) None
    Sample.newId Sample.now
  = (json 400
       (ErrorJson "Capacity exceeded"
          (Some (Text
            "Expected attendees (150) exceed venue capacity (100)"))),
     Sample.store).
Proof.
  rewrite (capacity_exceeded_rejected (RT := Sample.runtime)
             Sample.store Sample.organizer
             (<["expectedAttendees" := VStr "150"]> Sample.form) None
             Sample.newId Sample.now Sample.hall)
    by (vm_compute; reflexivity).
  vm_compute. reflexivity.
Defined.

(** The specification's scenarios: a budget of 300 against a cost of 400 is
    refused; with a budget of 500 the event is created, and 400 <= 500. *)
Lemma insufficient_budget_witness :
  postEvents Sample.store Sample.organizer
    (<["budget" := VStr "300"]> Sample.form) None Sample.newId Sample.now
  = (json 400
       (ErrorJson "Insufficient budget"
          (Some (Text "Budget (300) is insufficient for venue cost (400)"))),
     Sample.store)
  /\ exists e,
      fst (postEvents Sample.store Sample.organizer Sample.form None
             Sample.newId Sample.now) = json 201 (EventJson e)
      /\ event_budget e = 500%float
      /\ PrimFloat.leb
           (PrimFloat.mul (venue_pricePerDay Sample.hall) PrimFloat.one)
           (event_budget e) = true.
Proof.
  split.
  - rewrite (proj1 (insufficient_budget_rejected (RT := Sample.runtime)
               Sample.store Sample.organizer
               (<["budget" := VStr "300"]> Sample.form) None
               Sample.newId Sample.now) Sample.hall)
      by (vm_compute; reflexivity).
    vm_compute. reflexivity.
  - eexists. split; [vm_compute; reflexivity|].
    match goal with
    | |- event_budget ?e = _ /\ _ =>
        destruct (proj2 (insufficient_budget_rejected (RT := Sample.runtime)
                    Sample.store Sample.organizer Sample.form None
                    Sample.newId Sample.now) e)
          as (venue & Hv & Hb & _ & Hge);
          [vm_compute; reflexivity|]
    end.
    split; [vm_compute; reflexivity|].
    vm_compute in Hv. injection Hv as <-.
    apply Hge. vm_compute. reflexivity.
Defined.

(** The specification's scenario: owner A decides a request for a venue of
    owner B. *)
Lemma non_owner_forbidden_witness :
  patchVenueRequest Sample.store Sample.ownerA "64c0000000000000000000c2"
    Sample.decision Sample.now
  = (json 403 (ErrorJson "Unauthorized" None), Sample.store).
Proof.
  apply (non_owner_forbidden (RT := Sample.runtime) Sample.store
           Sample.ownerA "64c0000000000000000000c2" Sample.decision
           Sample.now
           (Sample.gala "64c0000000000000000000c2"
              "64b0000000000000000000b2")).
  - vm_compute. reflexivity.
  - simpl. intros [_ [H|[]]]. discriminate H.
Defined.

(** Owner A approves the request for the hall. *)
Lemma venue_request_transition_witness :
  exists event',
    fst (patchVenueRequest Sample.store Sample.ownerA
           "64c0000000000000000000c1" Sample.decision Sample.now)
    = json 200 (SuccessEventJson event')
    /\ findById event_id
         (events (snd (patchVenueRequest Sample.store Sample.ownerA
                         "64c0000000000000000000c1" Sample.decision
                         Sample.now)))
         (VStr "64c0000000000000000000c1") = Next (Some event')
    /\ vr_status (event_venueRequest event') = Some "approved"
    /\ vr_response (event_venueRequest event') = Some "welcome"
    /\ vr_respondedAt (event_venueRequest event') = Some Sample.now
    /\ event_status event' = Some "approved".
Proof.
  apply (venue_request_transition (RT := Sample.runtime) Sample.store
           Sample.ownerA "64c0000000000000000000c1" Sample.decision
           Sample.now
           (Sample.gala "64c0000000000000000000c1"
              "64b0000000000000000000b1")
           "approved" "welcome").
  - vm_compute. reflexivity.
  - reflexivity.
  - simpl. left. reflexivity.
  - vm_compute. reflexivity.
  - left. reflexivity.
  - vm_compute. reflexivity.
  - vm_compute. reflexivity.
Defined.

(** A forged token and a stale one; and a stale token that is not valid
    yet resolves no identity either. *)
Lemma auth_rejects_bad_tokens_witness :
  auth Sample.env Sample.store (Some ("Bearer " +:+ Sample.forgedToken))
    Sample.now
  = Send (json 401 (ErrorJson "Invalid token" None))
  /\ auth Sample.env Sample.store (Some ("Bearer " +:+ Sample.staleToken))
       Sample.now
     = Send (json 401 (ErrorJson "Token expired" None))
  /\ exists response,
      auth Sample.defaultEnv Sample.store
        (Some ("Bearer " +:+ Sample.earlyToken)) Sample.now = Send response
      /\ (status response = 401 \/ status response = 500).
Proof.
  split; [|split].
  - apply (proj1 (auth_rejects_bad_tokens (RT := Sample.runtime) Sample.env
                    Sample.store ("Bearer " +:+ Sample.forgedToken)
                    Sample.forgedToken Sample.now
                    eq_refl eq_refl ltac:(discriminate))).
    + vm_compute. reflexivity.
    + intros _. vm_compute. reflexivity.
  - apply (proj1 (proj2 (auth_rejects_bad_tokens (RT := Sample.runtime)
                           Sample.env Sample.store
                           ("Bearer " +:+ Sample.staleToken)
                           Sample.staleToken Sample.now
                           eq_refl eq_refl ltac:(discriminate)))
             {| claim_userId := VStr "64a0000000000000000000a1";
                claim_role := VStr "venue_owner";
                claim_iat := 1600000000;
                claim_nbf := NoDate;
                claim_exp := Seconds 1600604800 |} 1600604800).
    + vm_compute. reflexivity.
    + vm_compute. reflexivity.
    + left. reflexivity.
    + reflexivity.
    + vm_compute. discriminate.
  - apply (proj2 (proj2 (auth_rejects_bad_tokens (RT := Sample.runtime)
                           Sample.defaultEnv Sample.store
                           ("Bearer " +:+ Sample.earlyToken)
                           Sample.earlyToken Sample.now
                           eq_refl eq_refl ltac:(discriminate)))).
    right.
    exists {| claim_userId := VStr "64a0000000000000000000a1";
              claim_role := VStr "venue_owner";
              claim_iat := 1600000000;
              claim_nbf := Seconds 2000000000;
              claim_exp := Seconds 1600604800 |}, 1600604800.
    split; [vm_compute; reflexivity|].
    split; [reflexivity | vm_compute; discriminate].
Defined.

(** C5 as stated fails.  Where the process signs with the secret written in
    the source, a validly signed token whose expiry has passed is answered
    500 "Authentication failed" when it also says that it is not valid yet,
    and 401 "Invalid token" when its [nbf] is not a number; and a token with
    another signature whose payload does not parse is answered 500. *)
Lemma token_rejections_counterexample :
  (jwt_signed_with Sample.earlyToken (jwtSecret Sample.defaultEnv) = true
   /\ (exists payload,
         jwt_decode Sample.earlyToken = Some payload
         /\ claim_exp payload = Seconds 1600604800)
   /\ 1600604800 <= clockTimestamp Sample.now
   /\ auth Sample.defaultEnv Sample.store
        (Some ("Bearer " +:+ Sample.earlyToken)) Sample.now
      = Send (json 500 (ErrorJson "Authentication failed" None)))
  /\ (jwt_signed_with Sample.oddToken (jwtSecret Sample.defaultEnv) = true
      /\ (exists payload,
            jwt_decode Sample.oddToken = Some payload
            /\ claim_exp payload = Seconds 1600604800)
      /\ auth Sample.defaultEnv Sample.store
           (Some ("Bearer " +:+ Sample.oddToken)) Sample.now
         = Send (json 401 (ErrorJson "Invalid token" None)))
  /\ (jwt_signed_with Sample.garbledToken (jwtSecret Sample.defaultEnv)
      = false
      /\ auth Sample.defaultEnv Sample.store
           (Some ("Bearer " +:+ Sample.garbledToken)) Sample.now
         = Send (json 500 (ErrorJson "Authentication failed" None))).
Proof.
  repeat split; try (vm_compute; reflexivity);
    try (eexists; split; vm_compute; reflexivity).
  vm_compute. discriminate.
Defined.

(** C6.  The route takes a field for missing when [!eventData[field]]
    holds, which is also the case of a number field that is there with the
    value 0.  The form that lacks only its title and carries the price 0 is
    answered with a detail that names the title and the price; with the
    title filled in it is refused for the price alone, although
    [EventModel.create], whose schema allows a price of 0, accepts the same
    [eventData] and stores a free event. *)
Theorem zero_price_reported_missing :
  List.filter
    (fun field => negb (bool_decide (is_Some (Sample.freeForm !! field))))
    Sample.formFields = ["title"]
  /\ Sample.freeForm !! "price" = Some (VNum 0)
  /\ postEvents Sample.store Sample.organizer Sample.freeForm None
       Sample.newId Sample.now
     = (json 400
          (ErrorJson "Missing required fields"
             (Some (Text
               "Please fill in the following fields: title, price"))),
        Sample.store)
  /\ postEvents Sample.store Sample.organizer
       (<["title" := VStr "Launch"]> Sample.freeForm) None
       Sample.newId Sample.now
     = (json 400
          (ErrorJson "Missing required fields"
             (Some (Text "Please fill in the following fields: price"))),
        Sample.store)
  /\ exists e st',
      createEventDoc Sample.store
        (buildEventData (<["title" := VStr "Launch"]> Sample.freeForm) None
           Sample.organizer)
        Sample.newId Sample.now = Next (e, st')
      /\ event_price e = 0%float
      /\ In e (events st').
Proof.
  repeat split; try (vm_compute; reflexivity).
  eexists. eexists. split; [vm_compute; reflexivity|].
  split; [reflexivity|]. simpl. tauto.
Qed.

(** Ratings 5 and 3, then 4: (0 + 5 + 3 + 4) / 3 = 4. *)
Lemma venue_rating_is_mean_witness :
  exists venue',
    findById venue_id
      (venues (snd (postVenueReview Sample.store Sample.organizer
                      "64b0000000000000000000b1" Sample.review Sample.now)))
      (VStr "64b0000000000000000000b1") = Next (Some venue')
    /\ map rev_rating (venue_reviews venue')
       = map Rated ([5; 3] ++ [4])%list%float
    /\ venue_rating venue'
       = PrimFloat.div
           (fold_left PrimFloat.add ([5; 3] ++ [4])%list%float
              PrimFloat.zero)
           (PrimFloat.of_uint63
              (Uint63.of_Z (Z.of_nat (length [5; 3]%float) + 1))).
Proof.
  apply (venue_rating_is_mean (RT := Sample.runtime) Sample.store
           Sample.organizer "64b0000000000000000000b1" Sample.review
           Sample.now Sample.hall [5; 3]%float 4%float).
  - vm_compute. reflexivity.
  - reflexivity.
  - vm_compute. reflexivity.
  - vm_compute. reflexivity.
Defined.

(** The sample form yields a document, and on it both sets of checks pass;
    against a store whose hall is gone both fail. *)
Lemma route_checks_agree_with_hook_witness :
  exists e,
    newEvent (buildEventData Sample.form None Sample.organizer)
      Sample.newId Sample.now = Some e
    /\ ((exists venue,
           routeBookingChecks Sample.store
             (buildEventData Sample.form None Sample.organizer)
           = Next venue)
        <-> preSave Sample.store e = Next tt)
    /\ preSave Sample.store e = Next tt.
Proof.
  eexists. split; [vm_compute; reflexivity|]. split.
  - apply (route_checks_agree_with_hook (RT := Sample.runtime) Sample.store
             (buildEventData Sample.form None Sample.organizer)
             Sample.newId Sample.now).
    vm_compute. reflexivity.
  - vm_compute. reflexivity.
Defined.

(** C9 as stated fails: registration with an empty email succeeds, and the
    login with the same credentials is refused. *)
Lemma register_login_counterexample :
  status (fst (register Sample.env Sample.store Sample.blankEmail "salt"
                 Sample.newId Sample.now)) = 201
  /\ fst (login Sample.env
            (snd (register Sample.env Sample.store Sample.blankEmail "salt"
                    Sample.newId Sample.now))
            Sample.blankEmail (Sample.now + 1000))
     = json 400 (ErrorJson "Email and password are required" None).
Proof. split; vm_compute; reflexivity. Defined.

(** Dee registers and logs in a second later; the token verifies an hour
    after that. *)
Lemma register_then_login_witness :
  exists token user,
    fst (register Sample.env Sample.store Sample.credentials "salt"
           Sample.newId Sample.now) = json 201 (SessionJson token user)
    /\ user_id user = Sample.newId
    /\ exists token2 decoded,
        fst (login Sample.env
               (snd (register Sample.env Sample.store Sample.credentials
                       "salt" Sample.newId Sample.now))
               Sample.credentials (Sample.now + 1000))
        = json 200 (SessionJson token2 user)
        /\ jwt_verify token2 (jwtSecret Sample.env) (Sample.now + 3601000)
           = Next decoded
        /\ claim_userId decoded = VStr Sample.newId.
Proof.
  eexists. eexists. split; [vm_compute; reflexivity|].
  match goal with
  | |- user_id ?u = _ /\ _ =>
      destruct (register_then_login (RT := Sample.runtime) Sample.env
                  Sample.store Sample.credentials "salt" Sample.newId
                  Sample.now (Sample.now + 1000) "dee@example.org" "pw"
                  Sample.deeToken u)
        as (Hid & token2 & Hlogin & Hverify)
  end.
  - vm_compute. reflexivity.
  - discriminate.
  - vm_compute. reflexivity.
  - discriminate.
  - vm_compute. reflexivity.
  - vm_compute. reflexivity.
  - vm_compute. reflexivity.
  - vm_compute. reflexivity.
  - split; [exact Hid|].
    destruct (Hverify (Sample.now + 3601000)) as (decoded & Hd & Hu);
      [vm_compute; reflexivity|].
    exists token2, decoded. rewrite Hlogin. simpl in Hu |- *.
    repeat split; assumption.
Defined.

(** The specification's example: the loft has been marked unavailable, and
    its owner's approval of the pending request fails and stores nothing;
    so do a status update and a review of that event, and the creation of
    an event for the loft. *)
Lemma every_save_reruns_checks_witness :
  ((status (fst (putEventStatus Sample.store Sample.ownerB
                   "64c0000000000000000000c2" Sample.decision)) <> 200
    /\ snd (putEventStatus Sample.store Sample.ownerB
              "64c0000000000000000000c2" Sample.decision) = Sample.store)
   /\ (status (fst (postEventReview Sample.store Sample.ownerB
                      "64c0000000000000000000c2" Sample.decision Sample.now))
       <> 200
       /\ snd (postEventReview Sample.store Sample.ownerB
                 "64c0000000000000000000c2" Sample.decision Sample.now)
          = Sample.store)
   /\ (status (fst (patchVenueRequest Sample.store Sample.ownerB
                      "64c0000000000000000000c2" Sample.decision Sample.now))
       <> 200
       /\ snd (patchVenueRequest Sample.store Sample.ownerB
                 "64c0000000000000000000c2" Sample.decision Sample.now)
          = Sample.store))
  /\ exists event,
      newEvent (buildEventData Sample.loftForm None Sample.organizer)
        Sample.newId Sample.now = Some event
      /\ (exists error,
            createEventDoc Sample.store
              (buildEventData Sample.loftForm None Sample.organizer)
              Sample.newId Sample.now = Throw error)
      /\ status (fst (postEvents Sample.store Sample.organizer
                        Sample.loftForm None Sample.newId Sample.now))
         <> 201
      /\ snd (postEvents Sample.store Sample.organizer Sample.loftForm None
                Sample.newId Sample.now) = Sample.store.
Proof.
  split.
  - apply (proj1 (every_save_reruns_checks (RT := Sample.runtime)
                    Sample.store Sample.ownerB "64c0000000000000000000c2"
                    Sample.decision None Sample.newId Sample.now
                    (Sample.gala "64c0000000000000000000c2"
                       "64b0000000000000000000b2")
                    (or_intror
                       (ex_intro _ Sample.closedHall
                          (conj eq_refl (or_introl eq_refl)))))).
    vm_compute. reflexivity.
  - destruct (newEvent (buildEventData Sample.loftForm None Sample.organizer)
                Sample.newId Sample.now) as [event|] eqn:Hnew;
      [|vm_compute in Hnew; discriminate].
    exists event. split; [reflexivity|].
    assert (event_venue event = "64b0000000000000000000b2") as Hvenue.
    { vm_compute in Hnew. injection Hnew as <-. reflexivity. }
    destruct (every_save_reruns_checks (RT := Sample.runtime)
                Sample.store Sample.organizer "64c0000000000000000000c2"
                Sample.loftForm None Sample.newId Sample.now event)
      as (_ & Hcreate & Hroute).
    + right. exists Sample.closedHall. rewrite Hvenue.
      split; [vm_compute; reflexivity | left; reflexivity].
    + split; [exact (Hcreate _ Hnew) | exact (Hroute Hnew)].
Defined.

(** * Further properties of the sessions *)

Section AuthProperties.
Context {RT : Runtime}.

Lemma findById_outcome {D} (id_of : D -> ObjectId) coll v :
  (exists found, findById id_of coll v = Next found)
  \/ findById id_of coll v = Throw (CastError "_id").
Proof.
  unfold findById. destruct (castObjectId v); eauto.
Qed.

Lemma findById_In {D} (id_of : D -> ObjectId) coll v d :
  findById id_of coll v = Next (Some d) -> In d coll.
Proof.
  intros Hf. destruct (findById_found _ _ _ _ Hf) as (i & _ & Hfind & _).
  apply find_some in Hfind. tauto.
Qed.

(** What [jwt.verify] has checked of a token it accepts. *)
Lemma jwt_verify_accepts token secret now payload :
  jwt_verify token secret now = Next payload ->
  jwt_decode token = Some payload
  /\ jwt_signed_with token secret = true
  /\ claim_nbf payload <> NotANumber
  /\ (forall nbf, claim_nbf payload = Seconds nbf -> nbf <= clockTimestamp now)
  /\ claim_exp payload <> NotANumber
  /\ (forall exp, claim_exp payload = Seconds exp -> clockTimestamp now < exp).
Proof.
  unfold jwt_verify.
  destruct (jwt_decode token) as [decoded|];
    [|destruct (jwt_payload_unparsable token); discriminate].
  destruct (jwt_signed_with token secret); simpl; [|discriminate].
  destruct (claim_nbf decoded) as [|nbf|] eqn:Hnbf; simpl; try discriminate.
  - destruct (claim_exp decoded) as [|exp|] eqn:Hexp; simpl;
      try discriminate.
    + intros [= <-]. rewrite Hnbf, Hexp.
      repeat split; intros; discriminate.
    + destruct (exp <=? clockTimestamp now) eqn:Hle; simpl; [discriminate|].
      intros [= <-]. rewrite Hnbf, Hexp. apply Z.leb_gt in Hle.
      repeat split; try discriminate. intros ? [= <-]. exact Hle.
  - destruct (clockTimestamp now <? nbf) eqn:Hlt; simpl; [discriminate|].
    apply Z.ltb_ge in Hlt.
    destruct (claim_exp decoded) as [|exp|] eqn:Hexp; simpl;
      try discriminate.
    + intros [= <-]. rewrite Hnbf, Hexp.
      repeat split; try discriminate. intros ? [= <-]. exact Hlt.
    + destruct (exp <=? clockTimestamp now) eqn:Hle; simpl; [discriminate|].
      intros [= <-]. rewrite Hnbf, Hexp. apply Z.leb_gt in Hle.
      repeat split; try discriminate; intros ? [= <-]; assumption.
Qed.

(** [jwt.verify] returns a payload or throws. *)
Lemma jwt_verify_outcome token secret now :
  (exists payload, jwt_verify token secret now = Next payload)
  \/ (exists error, jwt_verify token secret now = Throw error).
Proof.
  unfold jwt_verify.
  destruct (jwt_decode token) as [decoded|];
    [|destruct (jwt_payload_unparsable token); eauto].
  destruct (jwt_signed_with token secret); simpl; [|eauto].
  destruct (claim_nbf decoded) as [|nbf|]; simpl; eauto.
  - destruct (claim_exp decoded) as [|exp|]; simpl; eauto.
    destruct (exp <=? clockTimestamp now); simpl; eauto.
  - destruct (clockTimestamp now <? nbf); simpl; eauto.
    destruct (claim_exp decoded) as [|exp|]; simpl; eauto.
    destruct (exp <=? clockTimestamp now); simpl; eauto.
Qed.

(** X1.  When [auth] lets a request through, the header carried a bearer
    token that decodes, is signed with the process-wide secret, is valid
    already and has not expired, and the user attached to the request is
    the stored user found under the token's [userId]. *)
Theorem auth_resolves_token_subject env st authorization now user :
  auth env st authorization now = Next user ->
  exists header token payload,
    authorization = Some header
    /\ String.prefix "Bearer " header = true
    /\ nth_error (split_on " " header) 1 = Some token
    /\ jwt_decode token = Some payload
    /\ jwt_signed_with token (jwtSecret env) = true
    /\ (forall nbf, claim_nbf payload = Seconds nbf ->
                    nbf <= clockTimestamp now)
    /\ (forall exp, claim_exp payload = Seconds exp ->
                    clockTimestamp now < exp)
    /\ findById user_id (users st) (claim_userId payload) = Next (Some user)
    /\ In user (users st).
Proof.
  unfold auth. destruct authorization as [header|]; [|discriminate].
  remember (nth_error (split_on " " header) 1) as segment eqn:Hnth.
  symmetry in Hnth.
  destruct (String.eqb header ""); simpl; [discriminate|].
  destruct (String.prefix "Bearer " header) eqn:Hprefix; simpl;
    [|discriminate].
  destruct segment as [[|c token]|]; simpl; try discriminate.
  destruct (jwt_verify (String c token) (jwtSecret env) now)
    as [payload|r|error] eqn:Hverify; simpl.
  - apply jwt_verify_accepts in Hverify.
    destruct Hverify as (Hdec & Hsig & _ & Hnbf & _ & Hexp).
    destruct (truthy (claim_userId payload)); simpl; [|discriminate].
    destruct (findById user_id (users st) (claim_userId payload))
      as [[u|]| |] eqn:Hf; simpl; try discriminate.
    + intros [= <-]. exists header, (String c token), payload.
      repeat split; try assumption. eapply findById_In. exact Hf.
    + destruct (String.eqb (exn_name e) "JsonWebTokenError");
        [discriminate|].
      destruct (String.eqb (exn_name e) "TokenExpiredError"); discriminate.
  - discriminate.
  - destruct (String.eqb (exn_name error) "JsonWebTokenError");
      [discriminate|].
    destruct (String.eqb (exn_name error) "TokenExpiredError"); discriminate.
Qed.

(** X2.  [auth] never lets an exception escape: it either passes the
    request on with a user or answers it itself, and then with a 401 or,
    for a failure that is no token error, a 500. *)
Theorem auth_never_throws env st authorization now :
  (exists user, auth env st authorization now = Next user)
  \/ (exists r, auth env st authorization now = Send r
                /\ (status r = 401 \/ status r = 500)).
Proof.
  unfold auth.
  match goal with
  | |- context [match ?attempt with
                | Next _ => _ | Send _ => _ | Throw _ => _ end] =>
      assert ((exists user, attempt = Next user)
              \/ (exists r, attempt = Send r /\ status r = 401)
              \/ (exists e, attempt = Throw e)) as Hattempt;
        [|destruct Hattempt as [[u ->]|[(r & -> & Hr)|[e ->]]]]
  end.
  - destruct authorization as [header|]; [|right; left; eauto].
    destruct (String.eqb header "" || negb (String.prefix "Bearer " header));
      [right; left; eauto|].
    destruct (nth_error (split_on " " header) 1) as [[|c token]|];
      [right; left; eauto| |right; left; eauto].
    destruct (jwt_verify_outcome (String c token) (jwtSecret env) now)
      as [[decoded ->] | [error ->]]; simpl; [|eauto].
    destruct (truthy (claim_userId decoded)); simpl; [|right; left; eauto].
    destruct (findById_outcome user_id (users st) (claim_userId decoded))
      as [[[u|] ->]| ->]; simpl; eauto 7.
  - eauto.
  - right. eauto.
  - right.
    destruct (String.eqb (exn_name e) "JsonWebTokenError"); simpl; [eauto|].
    destruct (String.eqb (exn_name e) "TokenExpiredError"); simpl; eauto.
Qed.

End AuthProperties.

Section SessionFlows.
Context {RT : Runtime}.

Lemma split_on_absent sep s :
  forallb (fun c => negb (Ascii.eqb c sep)) (list_ascii_of_string s) = true ->
  split_on sep s = [s].
Proof.
  induction s as [|c s IH]; simpl; [reflexivity|].
  rewrite andb_true_iff, negb_true_iff. intros [Hc Hs].
  rewrite Hc, (IH Hs). reflexivity.
Qed.

Lemma bearer_token token :
  noSpace token = true ->
  nth_error (split_on " " ("Bearer " +:+ token)) 1 = Some token.
Proof.
  intros Hs. simpl. change ("" +:+ token) with token.
  rewrite (split_on_absent _ _ Hs). reflexivity.
Qed.

(** With distinct ids, looking a stored document up by its id finds it. *)
Lemma find_unique {D} (id_of : D -> ObjectId) coll d :
  List.NoDup (map id_of coll) -> In d coll ->
  find (fun x => eqb_id (id_of x) (id_of d)) coll = Some d.
Proof.
  induction coll as [|x coll IH]; simpl; [tauto|].
  intros Hnd [-> | Hin].
  - unfold eqb_id. rewrite String.eqb_refl. reflexivity.
  - inversion Hnd as [|? ? Hx Hrest]; subst.
    destruct (eqb_id (id_of x) (id_of d)) eqn:Hxd.
    + exfalso. apply Hx. apply String.eqb_eq in Hxd. rewrite Hxd.
      apply in_map. exact Hin.
    + apply IH; assumption.
Qed.

(** What a successful login has found. *)
Lemma login_succeeded env st creds now token user :
  fst (login env st creds now) = json 200 (SessionJson token user) ->
  exists stored,
    In stored (users st)
    /\ user = without_password stored
    /\ token = jwt_sign stored (jwtSecret env) now.
Proof.
  unfold login, findOneByEmail.
  destruct (negb (truthy (prop creds "email"))
            || negb (truthy (prop creds "password"))); simpl;
    [discriminate|].
  destruct (castString (prop creds "email")); simpl; try discriminate.
  all: match goal with
       | |- context [find ?f (users ?s)] =>
           destruct (find f (users s)) as [stored|] eqn:Hfind; simpl;
             [|discriminate]
       end.
  all: destruct (prop creds "password"); simpl; try discriminate.
  all: destruct (user_password stored); simpl; try discriminate.
  all: destruct (bcrypt_compare _ _); simpl; try discriminate.
  all: intros [= <- <-]; exists stored; apply find_some in Hfind;
    repeat split; tauto.
Qed.

(** X3.  The token a successful login returns opens the session it was
    issued for: sent as [Bearer <token>] before it expires, [auth] attaches
    the stored user who logged in, and [GET /profile] answers with that
    user's name, email, id and role.  (The token library round-trips the
    token and renders it without a space; stored ids are distinct,
    non-empty ObjectId strings.) *)
Theorem login_token_opens_profile env st creds now now2 token user :
  fst (login env st creds now) = json 200 (SessionJson token user) ->
  jwt_decode token = Some (sessionPayload user now) ->
  jwt_signed_with token (jwtSecret env) = true ->
  token <> "" -> noSpace token = true ->
  List.NoDup (map user_id (users st)) ->
  user_id user <> "" ->
  objectIdOfString (user_id user) = Some (user_id user) ->
  clockTimestamp now2 < clockTimestamp now + 7 * 24 * 60 * 60 ->
  exists stored,
    auth env st (Some ("Bearer " +:+ token)) now2 = Next stored
    /\ without_password stored = user
    /\ route_getProfile env st (Some ("Bearer " +:+ token)) now2
       = Next {| profile_name := user_name user;
                 profile_email := user_email user;
                 profile_id := user_id user;
                 profile_role := user_role user |}.
Proof.
  intros Hlogin Hdec Hsig Hne Hns Hnd Hid Hoid Hfresh.
  destruct (login_succeeded _ _ _ _ _ _ Hlogin)
    as (stored & Hin & -> & _).
  simpl in Hid, Hoid.
  assert (auth env st (Some ("Bearer " +:+ token)) now2 = Next stored) as Ha.
  { unfold auth. rewrite (bearer_token _ Hns).
    change (String.eqb ("Bearer " +:+ token) ""
            || negb (String.prefix "Bearer " ("Bearer " +:+ token)))
      with (negb (String.prefix "" token)).
    assert (String.prefix "" token = true) as ->
      by (destruct token; reflexivity).
    simpl. destruct token as [|c token]; [congruence|].
    unfold jwt_verify. rewrite Hdec, Hsig. simpl.
    apply Z.leb_gt in Hfresh. rewrite Hfresh. simpl.
    assert (String.eqb (user_id stored) "" = false) as ->
      by (apply String.eqb_neq; exact Hid).
    simpl. unfold findById. simpl.
    destruct (user_id stored) as [|c' id'] eqn:Hi; [congruence|].
    rewrite Hoid. rewrite <- Hi.
    rewrite (find_unique user_id _ _ Hnd Hin). reflexivity. }
  exists stored. split; [exact Ha|]. split; [reflexivity|].
  unfold route_getProfile. rewrite Ha. simpl.
  unfold getProfile, findById. simpl.
  rewrite (find_unique user_id _ _ Hnd Hin). reflexivity.
Qed.

(** X4.  [login] never writes to the store, and neither [login] nor
    [register] ever returns a user object that still carries the password
    hash. *)
Theorem sessions_never_expose_password env st creds salt newId now :
  snd (login env st creds now) = st
  /\ (forall token user,
        body (fst (login env st creds now)) = SessionJson token user ->
        user_password user = None)
  /\ (forall token user,
        body (fst (register env st creds salt newId now))
        = SessionJson token user ->
        user_password user = None).
Proof.
  repeat split.
  - unfold login, handle, findOneByEmail.
    repeat match goal with
           | |- context [if ?c then _ else _] => destruct c; simpl
           | |- context [match castString ?v with _ => _ end] =>
               destruct (castString v); simpl
           | |- context [find ?f (users st)] =>
               destruct (find f (users st)); simpl
           | |- context [match prop creds "password" with _ => _ end] =>
               destruct (prop creds "password"); simpl
           | |- context [match user_password ?u with _ => _ end] =>
               destruct (user_password u); simpl
           end; reflexivity.
  - intros token user. unfold login, handle, findOneByEmail.
    repeat match goal with
           | |- context [if ?c then _ else _] => destruct c; simpl
           | |- context [match castString ?v with _ => _ end] =>
               destruct (castString v); simpl
           | |- context [find ?f (users st)] =>
               destruct (find f (users st)); simpl
           | |- context [match prop creds "password" with _ => _ end] =>
               destruct (prop creds "password"); simpl
           | |- context [match user_password ?u with _ => _ end] =>
               destruct (user_password u); simpl
           end; try discriminate; intros [= _ <-]; reflexivity.
  - intros token user. unfold register, handle, findOneByEmail.
    repeat match goal with
           | |- context [if ?c then _ else _] => destruct c; simpl
           | |- context [match castString ?v with _ => _ end] =>
               destruct (castString v); simpl
           | |- context [find ?f (users st)] =>
               destruct (find f (users st)); simpl
           | |- context [match prop creds "password" with _ => _ end] =>
               destruct (prop creds "password"); simpl
           | |- context [match newUser ?a ?b ?c ?d ?e with _ => _ end] =>
               destruct (newUser a b c d e); simpl
           end; try discriminate; intros [= _ <-]; reflexivity.
Qed.

End SessionFlows.

Section Accounts.
Context {RT : Runtime}.

Lemma NoDup_snoc {A} (l : list A) x :
  List.NoDup l -> ~ In x l -> List.NoDup (l ++ [x])%list.
Proof.
  intros Hl Hx. induction l as [|y l IH]; simpl.
  - constructor; [tauto | constructor].
  - inversion Hl as [|? ? Hy Hrest]; subst. constructor.
    + rewrite in_app_iff. simpl. intros [H|[H|[]]]; [tauto|].
      apply Hx. left. symmetry. exact H.
    + apply IH; [exact Hrest|]. intros H. apply Hx. right. exact H.
Qed.

(** X5.  [register] keeps the [email] path unique across the user
    collection: the [findOne] check refuses every email (and the absence of
    one) that a stored user already has. *)
Theorem register_keeps_emails_unique env st creds salt newId now :
  List.NoDup (map user_email (users st)) ->
  List.NoDup
    (map user_email (users (snd (register env st creds salt newId now)))).
Proof.
  intros Hnd. unfold register, handle, findOneByEmail, newUser.
  destruct (castString (prop creds "email")) as [email| | |] eqn:Hcast;
    simpl; try exact Hnd.
  all: match goal with
       | |- context [find ?f (users ?s)] =>
           destruct (find f (users s)) as [taken|] eqn:Hfind; simpl;
             [exact Hnd|]
       end.
  all: destruct (prop creds "password"); simpl; try exact Hnd.
  all: destruct (optional (castString (prop creds "name"))); simpl;
    try exact Hnd.
  all: destruct (required (castString (prop creds "role"))); simpl;
    try exact Hnd.
  all: match goal with
       | |- context [if ?c then _ else _] => destruct c; simpl
       end; try exact Hnd.
  all: unfold insertOne; rewrite map_app; simpl; apply NoDup_snoc;
    [exact Hnd|]; rewrite in_map_iff; intros (u & Hu & Hin);
    apply (find_none _ _ Hfind) in Hin; simpl in Hu; rewrite Hu in Hin;
    try discriminate Hin.
  rewrite String.eqb_refl in Hin. discriminate Hin.
Qed.

(** X6.  [login] does not tell an unknown email from a wrong password: with
    an email and a password string supplied, both are answered with the
    same 401 "Invalid credentials" and the store is untouched. *)
Theorem login_does_not_reveal_accounts env st creds now email password :
  prop creds "email" = VStr email -> email <> "" ->
  prop creds "password" = VStr password -> password <> "" ->
  (findOneByEmail (users st) (VStr email) = Next None ->
   login env st creds now
   = (json 401 (ErrorJson "Invalid credentials" None), st))
  /\ (forall user hash,
        findOneByEmail (users st) (VStr email) = Next (Some user) ->
        user_password user = Some hash ->
        bcrypt_compare password hash = false ->
        login env st creds now
        = (json 401 (ErrorJson "Invalid credentials" None), st)).
Proof.
  intros He Hene Hp Hpne. unfold login. rewrite He, Hp. simpl.
  assert (String.eqb email "" = false) as ->
    by (apply String.eqb_neq; exact Hene).
  assert (String.eqb password "" = false) as ->
    by (apply String.eqb_neq; exact Hpne).
  unfold findOneByEmail. simpl. split.
  - intros [= ->]. reflexivity.
  - intros user hash [= ->] -> Hcmp. simpl. rewrite Hcmp. reflexivity.
Qed.

End Accounts.

(** * Further properties of event creation *)

Section CreationFlows.
Context {RT : Runtime}.

Lemma eventData_organizer body files user :
  prop (buildEventData body files user) "organizer" = VId (user_id user).
Proof.
  unfold buildEventData.
  repeat match goal with
         | |- context [if ?c then _ else _] => destruct c
         end;
  repeat first [ rewrite prop_delete_ne by discriminate
               | rewrite prop_insert_eq
               | rewrite prop_insert_ne by discriminate ];
  reflexivity.
Qed.

Lemma postEvents_created_valid st user body files newId now e :
  fst (postEvents st user body files newId now) = json 201 (EventJson e) ->
  validateEvent e = true.
Proof.
  unfold postEvents.
  generalize (buildEventData body files user) as eventData.
  intros eventData.
  destruct (0 <? _); simpl; [discriminate|].
  destruct (routeBookingChecks st eventData)
    as [v|r|error] eqn:Hr; simpl; try discriminate.
  - unfold createEventDoc.
    destruct (newEvent _ _ _) as [e'|]; simpl; [|discriminate].
    destruct (validateEvent e') eqn:Hv; simpl; [|discriminate].
    destruct (preSave_outcome st e') as [Hp|[error Hp]]; rewrite Hp; simpl;
      [|discriminate].
    intros [= <-]. exact Hv.
  - intros ->. apply routeBookingChecks_sends in Hr. simpl in Hr. lia.
Qed.

(** The paths of a constructed document that the form does not set. *)
Lemma newEvent_defaults eventData id now e organizer :
  newEvent eventData id now = Some e ->
  prop eventData "organizer" = VId organizer ->
  prop eventData "status" = VUndef ->
  event_id e = id
  /\ event_organizer e = organizer
  /\ event_status e = Some "pending"
  /\ event_venueRequest e
     = {| vr_status := Some "pending"; vr_message := None;
          vr_response := None; vr_requestedAt := now;
          vr_respondedAt := None |}
  /\ event_attendees e = [] /\ event_reviews e = [].
Proof.
  intros Hnew Horganizer Hstatus. unfold newEvent in Hnew.
  rewrite Horganizer, Hstatus in Hnew. simpl in Hnew.
  repeat match type of Hnew with
         | (mbind _ ?m) = Some _ =>
             destruct m; simpl in Hnew; [|discriminate]
         | (?m ≫= _) = Some _ =>
             destruct m; simpl in Hnew; [|discriminate]
         end.
  injection Hnew as <-. simpl. repeat split.
Qed.

(** X7.  An event created from a body that carries only the creation
    form's fields is stored under the id drawn for it, belongs to the
    caller, has status [pending] and a pending venue request dated now, no
    attendees and no reviews, satisfies the schema's validators, is the
    one document added to the store, and fits its venue: the venue exists,
    is available and its capacity is not exceeded. *)
Theorem created_event_is_pending_and_fits st user body files newId now e :
  (forall k, is_Some (body !! k) -> In k creationForm) ->
  fst (postEvents st user body files newId now) = json 201 (EventJson e) ->
  event_id e = newId
  /\ event_organizer e = user_id user
  /\ event_status e = Some "pending"
  /\ event_venueRequest e
     = {| vr_status := Some "pending"; vr_message := None;
          vr_response := None; vr_requestedAt := now;
          vr_respondedAt := None |}
  /\ event_attendees e = [] /\ event_reviews e = []
  /\ validateEvent e = true
  /\ snd (postEvents st user body files newId now)
     = set_events st (insertOne (events st) e)
  /\ exists venue,
      findById venue_id (venues st) (VId (event_venue e)) = Next (Some venue)
      /\ venue_availability venue = true
      /\ js_gt (event_expectedAttendees e) (venue_capacity venue) = false.
Proof.
  intros Hform He.
  pose proof (postEvents_created_valid _ _ _ _ _ _ _ He) as Hvalid.
  destruct (postEvents_created _ _ _ _ _ _ _ He)
    as (_ & _ & Hnew & Hhook & Hstore).
  assert (prop body "status" = VUndef) as Hstatus.
  { unfold prop. destruct (body !! "status") as [v|] eqn:Hb; [|reflexivity].
    exfalso. assert (In "status" creationForm) as Hin by (apply Hform; eauto).
    simpl in Hin. intuition discriminate. }
  rewrite <- (eventData_untouched body files user "status") in Hstatus
    by (simpl; intuition discriminate).
  destruct (newEvent_defaults _ _ _ _ _ Hnew
              (eventData_organizer body files user) Hstatus)
    as (Hid & Horg & Hpending & Hrequest & Hattendees & Hreviews).
  apply preSave_passes in Hhook. destruct Hhook as (venue & Hv & Ha & Hc & _).
  repeat split; try assumption. eauto.
Qed.


(** X9.  An expected attendance, a budget or a price that coerces to zero
    or to no number is reported as a missing field: the request is answered
    400 "Missing required fields", the detail lists the field, and nothing
    is stored.  In particular no event with a price of 0 is created. *)
Theorem zero_or_non_numeric_is_missing st user body files newId now field :
  In field ["expectedAttendees"; "budget"; "price"] ->
  PrimFloat.is_zero (ToNumber (prop body field))
  || PrimFloat.is_nan (ToNumber (prop body field)) = true ->
  In field (missingFields (buildEventData body files user))
  /\ postEvents st user body files newId now
     = (json 400
          (ErrorJson "Missing required fields"
             (Some (Text
               ("Please fill in the following fields: "
                +:+ String.concat ", "
                      (missingFields (buildEventData body files user)))))),
        st).
Proof.
  intros Hin Hfalsy.
  assert (In field (missingFields (buildEventData body files user))) as Hm.
  { apply missingFields_spec. simpl in Hin.
    destruct Hin as [<-|[<-|[<-|[]]]].
    - split; [simpl; tauto|]. rewrite eventData_expectedAttendees. simpl.
      rewrite Hfalsy. reflexivity.
    - split; [simpl; tauto|]. rewrite eventData_budget. simpl.
      rewrite Hfalsy. reflexivity.
    - split; [simpl; tauto|]. rewrite eventData_price. simpl.
      rewrite Hfalsy. reflexivity. }
  split; [exact Hm|].
  unfold postEvents.
  rewrite some_missing_fields_length; [reflexivity|].
  intros Hnil. rewrite Hnil in Hm. exact Hm.
Qed.

End CreationFlows.

(** * Further properties of saving events *)

Section SavingFlows.
Context {RT : Runtime}.

Lemma preSave_same_venues st st' e :
  venues st' = venues st -> preSave st' e = preSave st e.
Proof. intros Hv. unfold preSave. rewrite Hv. reflexivity. Qed.

Lemma savedOne_consistent st st' :
  savedOne st st' -> consistent st -> consistent st'.
Proof.
  intros [-> | (e & Hv & Hp & Hst)] Hc; [exact Hc|].
  unfold consistent in *.
  assert (forall x, validateEvent x = true /\ preSave st x = Next tt ->
                    validateEvent x = true /\ preSave st' x = Next tt) as Hmove.
  { intros x [Hx1 Hx2]. split; [exact Hx1|].
    rewrite (preSave_same_venues st st'); [exact Hx2|].
    destruct Hst as [-> | ->]; reflexivity. }
  rewrite List.Forall_forall in *. intros x Hin. apply Hmove.
  destruct Hst as [-> | ->]; simpl in Hin.
  - unfold updateById in Hin. apply in_map_iff in Hin.
    destruct Hin as (y & Hy & Hin).
    destruct (eqb_id (event_id y) (event_id e)); subst x.
    + tauto.
    + apply Hc. exact Hin.
  - unfold insertOne in Hin. apply in_app_iff in Hin.
    destruct Hin as [Hin | [<- | []]]; [apply Hc; exact Hin | tauto].
Qed.

Lemma saveEvent_savedOne st ok e (r : Response) h :
  savedOne st (snd (handle st (st' ← saveEvent st ok e; Next (r, st')) h)).
Proof.
  destruct (saveEvent_outcome st ok e) as [(_ & Hv & Hp & ->)|[error ->]];
    simpl.
  - right. exists e. auto.
  - left. reflexivity.
Qed.

Lemma putEventStatus_savedOne st user id body :
  savedOne st (snd (putEventStatus st user id body)).
Proof.
  unfold putEventStatus.
  destruct (findById event_id (events st) (VStr id)) as [[event|]| |];
    simpl; try (left; reflexivity).
  destruct (find _ (venues st)) as [venue|]; simpl; [|left; reflexivity].
  destruct (negb _); simpl; [left; reflexivity|].
  apply saveEvent_savedOne.
Qed.

Lemma postEventReview_savedOne st user id body now :
  savedOne st (snd (postEventReview st user id body now)).
Proof.
  unfold postEventReview.
  destruct (findById event_id (events st) (VStr id)) as [[event|]| |];
    simpl; try (left; reflexivity).
  apply saveEvent_savedOne.
Qed.

Lemma patchVenueRequest_savedOne st user id body now :
  savedOne st (snd (patchVenueRequest st user id body now)).
Proof.
  unfold patchVenueRequest.
  destruct (findById event_id (events st) (VStr id)) as [[event|]| |];
    simpl; try (left; reflexivity).
  destruct (negb _ || negb _); simpl; [left; reflexivity|].
  apply saveEvent_savedOne.
Qed.

Lemma postEvents_savedOne st user body files newId now :
  savedOne st (snd (postEvents st user body files newId now)).
Proof.
  unfold postEvents.
  generalize (buildEventData body files user) as eventData.
  intros eventData.
  destruct (0 <? _); simpl; [left; reflexivity|].
  destruct (routeBookingChecks st eventData);
    simpl; try (left; reflexivity).
  unfold createEventDoc.
  destruct (newEvent _ _ _) as [e|]; simpl; [|left; reflexivity].
  destruct (validateEvent e) eqn:Hv; simpl; [|left; reflexivity].
  destruct (preSave_outcome st e) as [Hp|[error Hp]]; rewrite Hp; simpl;
    [|left; reflexivity].
  right. exists e. auto.
Qed.

(** X10.  The four routes that save an event keep the event collection
    consistent: if every stored event satisfies the schema's validators and
    passes the hook's venue checks, the same holds after creating an event,
    updating a status, appending an event review or deciding a venue
    request, whatever the request was. *)
Theorem event_routes_keep_store_consistent st user id body files newId now :
  consistent st ->
  consistent (snd (postEvents st user body files newId now))
  /\ consistent (snd (putEventStatus st user id body))
  /\ consistent (snd (postEventReview st user id body now))
  /\ consistent (snd (patchVenueRequest st user id body now)).
Proof.
  intros Hc. repeat split.
  - exact (savedOne_consistent _ _ (postEvents_savedOne _ _ _ _ _ _) Hc).
  - exact (savedOne_consistent _ _ (putEventStatus_savedOne _ _ _ _) Hc).
  - exact (savedOne_consistent _ _ (postEventReview_savedOne _ _ _ _ _) Hc).
  - exact (savedOne_consistent _ _ (patchVenueRequest_savedOne _ _ _ _ _) Hc).
Qed.

End SavingFlows.

Section UpdateFlows.
Context {RT : Runtime}.

(** What an accepted decision has checked and stored. *)
Lemma patchVenueRequest_accepted st user id body now :
  status (fst (patchVenueRequest st user id body now)) = 200 ->
  exists event,
    findById event_id (events st) (VStr id) = Next (Some event)
    /\ user_role user = "venue_owner"
    /\ In (event_venue event) (user_venues user)
    /\ is_Some (optional (castString (prop body "action")))
    /\ is_Some (optional (castString (prop body "response")))
    /\ validateEvent
         (decided event (prop body "action") (prop body "response") now)
       = true
    /\ preSave st event = Next tt
    /\ patchVenueRequest st user id body now
       = (json 200
            (SuccessEventJson
               (decided event (prop body "action") (prop body "response")
                  now)),
          set_events st
            (updateById event_id (events st)
               (decided event (prop body "action") (prop body "response")
                  now))).
Proof.
  unfold patchVenueRequest.
  destruct (findById_outcome event_id (events st) (VStr id))
    as [[[event|] Hf]|Hf]; rewrite Hf; simpl; try discriminate.
  destruct (String.eqb (user_role user) "venue_owner") eqn:Hrole; simpl;
    [|discriminate].
  destruct (existsb (eqb_id (event_venue event)) (user_venues user)) eqn:Hin;
    simpl; [|discriminate].
  fold (decided event (prop body "action") (prop body "response") now).
  match goal with
  | |- context [saveEvent st ?ok ?e] =>
      destruct (saveEvent_outcome st ok e) as [(Hok & Hv & Hp & Hs)|[error Hs]];
        rewrite Hs; simpl; [|discriminate]
  end.
  intros _. exists event. apply andb_true_iff in Hok. destruct Hok as [Ha Hr].
  apply bool_decide_eq_true in Ha, Hr.
  repeat split; try assumption.
  - apply String.eqb_eq. exact Hrole.
  - apply includes_In. exact Hin.
Qed.



(** X16.  An accepted venue-request decision mirrors [approved] only for
    the action [approved]; every other accepted action, [pending] or none
    at all included, sets the event's status to [rejected].  The stored
    request status is one of the schema's three or no status. *)
Theorem decision_outcome st user id body now :
  status (fst (patchVenueRequest st user id body now)) = 200 ->
  exists event',
    fst (patchVenueRequest st user id body now)
    = json 200 (SuccessEventJson event')
    /\ (prop body "action" = VStr "approved" ->
        event_status event' = Some "approved")
    /\ (prop body "action" <> VStr "approved" ->
        event_status event' = Some "rejected")
    /\ enumOrUnset venueRequestStatusEnum
         (vr_status (event_venueRequest event')) = true.
Proof.
  intros Hok.
  destruct (patchVenueRequest_accepted _ _ _ _ _ Hok)
    as (event & _ & _ & _ & _ & _ & Hv & _ & ->).
  eexists. split; [reflexivity|]. simpl. repeat split.
  - intros ->. reflexivity.
  - intros Hne. destruct (prop body "action") as [| |b|x|s|xs|i];
      try reflexivity.
    simpl. destruct (String.eqb s "approved") eqn:Hs; [|reflexivity].
    apply String.eqb_eq in Hs. congruence.
  - unfold validateEvent in Hv. simpl in Hv.
    apply andb_true_iff in Hv. tauto.
Qed.

(** X12.  A decided venue request can be decided again: after an accepted
    decision, a second one by the same owner with action [approved] or
    [rejected] is accepted too and overwrites the first, whatever the first
    decided. *)
Theorem decision_can_be_repeated st user id body1 now1 body2 now2
  action message :
  status (fst (patchVenueRequest st user id body1 now1)) = 200 ->
  prop body2 "action" = VStr action ->
  action = "approved" \/ action = "rejected" ->
  prop body2 "response" = VStr message ->
  exists event2,
    fst (patchVenueRequest (snd (patchVenueRequest st user id body1 now1))
           user id body2 now2)
    = json 200 (SuccessEventJson event2)
    /\ findById event_id
         (events
            (snd (patchVenueRequest
                    (snd (patchVenueRequest st user id body1 now1))
                    user id body2 now2)))
         (VStr id) = Next (Some event2)
    /\ vr_status (event_venueRequest event2) = Some action
    /\ vr_response (event_venueRequest event2) = Some message
    /\ vr_respondedAt (event_venueRequest event2) = Some now2
    /\ event_status event2 = Some action.
Proof.
  intros Hok Ha Hact Hr.
  destruct (patchVenueRequest_accepted _ _ _ _ _ Hok)
    as (event & Hf & Hrole & Hin & _ & _ & Hv & Hp & ->).
  simpl.
  set (event1 := decided event (prop body1 "action") (prop body1 "response")
                   now1) in *.
  set (st1 := set_events st (updateById event_id (events st) event1)).
  assert (findById event_id (events st1) (VStr id) = Next (Some event1))
    as Hf1 by (eapply findById_updateById; [exact Hf | reflexivity]).
  unfold patchVenueRequest. rewrite Hf1, Ha, Hr, Hrole. simpl.
  apply includes_In in Hin. rewrite Hin. simpl.
  assert (validateEvent (decided event1 (VStr action) (VStr message) now2)
          = true) as Hv2.
  { unfold validateEvent in *. simpl in *.
    repeat (apply andb_true_iff in Hv; destruct Hv as [Hv ?]).
    repeat (apply andb_true_iff; split); try assumption.
    - destruct Hact as [-> | ->]; reflexivity.
    - destruct Hact as [-> | ->]; reflexivity. }
  unfold decided in Hv2. simpl in Hv2.
  unfold saveEvent. simpl. rewrite Hv2.
  assert (forall e', event_venue e' = event_venue event ->
                     event_expectedAttendees e'
                     = event_expectedAttendees event ->
                     event_budget e' = event_budget event ->
                     preSave st1 e' = Next tt) as Hp2.
  { intros e' H1 H2 H3. rewrite <- Hp. unfold preSave.
    rewrite H1, H2, H3. reflexivity. }
  rewrite Hp2 by reflexivity. simpl.
  eexists. split; [reflexivity|]. split.
  - eapply findById_updateById; [exact Hf1 | reflexivity].
  - simpl. repeat split. destruct Hact as [-> | ->]; reflexivity.
Qed.

End UpdateFlows.

(** * Further properties of venue reviews and of the role gate *)

Lemma is_nan_of_spec (x : float) :
  Prim2SF x = S754_nan -> PrimFloat.is_nan x = true.
Proof.
  intros H. unfold PrimFloat.is_nan. rewrite FloatAxioms.eqb_spec, H.
  reflexivity.
Qed.

(** A sum with [NaN] is [NaN], and so is its quotient by anything. *)
Lemma quotient_of_nan_sum (x y : float) :
  PrimFloat.is_nan (PrimFloat.div (PrimFloat.add x PrimFloat.nan) y) = true.
Proof.
  apply is_nan_of_spec.
  rewrite FloatAxioms.div_spec, FloatAxioms.add_spec.
  replace (Prim2SF PrimFloat.nan) with S754_nan by reflexivity.
  unfold SF64div, SF64add.
  destruct (Prim2SF x) as [[]|[]| |[] m e]; reflexivity.
Qed.

Section ReviewFlows.
Context {RT : Runtime}.


(** X15.  The role gate as the routes apply it: [POST /events] reaches its
    handler only for an authenticated organizer and
    [PUT /events/:id/status] only for an authenticated venue owner, and
    [PATCH /vevent/:id/venue-request], which has no gate of its own,
    changes the store only for an authenticated venue owner. *)
Theorem writes_need_the_role env st authorization id body files newId now :
  (forall answer,
     route_postEvents env st authorization body files newId now
     = Next answer ->
     exists user,
       auth env st authorization now = Next user
       /\ user_role user = "organizer"
       /\ answer = postEvents st user body files newId now)
  /\ (forall answer,
        route_putEventStatus env st authorization id body now
        = Next answer ->
        exists user,
          auth env st authorization now = Next user
          /\ user_role user = "venue_owner"
          /\ answer = putEventStatus st user id body)
  /\ (forall answer,
        route_patchVenueRequest env st authorization id body now
        = Next answer ->
        snd answer <> st ->
        exists user,
          auth env st authorization now = Next user
          /\ user_role user = "venue_owner").
Proof.
  unfold route_postEvents, route_putEventStatus, route_patchVenueRequest,
    checkRole.
  destruct (auth env st authorization now) as [user|r|error]; simpl;
    repeat split; try discriminate.
  - intros answer.
    destruct (String.eqb (user_role user) "organizer") eqn:Hrole; simpl;
      [|discriminate].
    intros [= <-]. exists user. apply String.eqb_eq in Hrole. auto.
  - intros answer.
    destruct (String.eqb (user_role user) "venue_owner") eqn:Hrole; simpl;
      [|discriminate].
    intros [= <-]. exists user. apply String.eqb_eq in Hrole. auto.
  - intros answer [= <-] Hchanged. exists user. split; [reflexivity|].
    destruct (String.eqb (user_role user) "venue_owner") eqn:Hrole;
      [apply String.eqb_eq; exact Hrole|].
    exfalso. apply Hchanged. unfold patchVenueRequest.
    destruct (findById event_id (events st) (VStr id)) as [[event|]| |];
      simpl; try reflexivity.
    rewrite Hrole. reflexivity.
Qed.

End ReviewFlows.

(** * Properties of the listings *)


Lemma insertByRequestedAt_In e x sorted :
  In x (insertByRequestedAt e sorted) <-> x = e \/ In x sorted.
Proof.
  induction sorted as [|y sorted IH]; simpl; [intuition congruence|].
  destruct (_ <=? _); simpl; [intuition congruence|].
  rewrite IH. intuition congruence.
Qed.

Lemma sortByRequestedAt_In x es :
  In x (sortByRequestedAt es) <-> In x es.
Proof.
  induction es as [|e es IH]; simpl; [tauto|].
  rewrite insertByRequestedAt_In, IH. intuition congruence.
Qed.

Lemma insertByRequestedAt_sorted e sorted :
  Sorted notEarlier sorted -> Sorted notEarlier (insertByRequestedAt e sorted).
Proof.
  induction sorted as [|x sorted IH]; simpl; intros Hs.
  - constructor; constructor.
  - destruct (_ <=? _) eqn:Hle.
    + constructor; [exact Hs|]. constructor. apply Z.leb_le. exact Hle.
    + inversion Hs as [|? ? Hrest Hhd]; subst.
      constructor; [apply IH; exact Hrest|].
      apply Z.leb_gt in Hle.
      destruct sorted as [|y sorted]; simpl.
      * constructor. unfold notEarlier. lia.
      * destruct (_ <=? _); constructor.
        -- unfold notEarlier. lia.
        -- inversion Hhd; assumption.
Qed.

Lemma sortByRequestedAt_sorted es : Sorted notEarlier (sortByRequestedAt es).
Proof.
  induction es as [|e es IH]; simpl;
    [constructor | apply insertByRequestedAt_sorted; exact IH].
Qed.

Lemma insert_below_head e x sorted :
  vr_requestedAt (event_venueRequest x)
  <= vr_requestedAt (event_venueRequest e) ->
  insertByRequestedAt e (x :: sorted) = e :: x :: sorted.
Proof. intros H. simpl. apply Z.leb_le in H. rewrite H. reflexivity. Qed.

(** Sorting a list that the sort produced changes nothing. *)
Lemma sorted_is_fixed es :
  Sorted notEarlier es -> sortByRequestedAt es = es.
Proof.
  induction es as [|e es IH]; simpl; [reflexivity|].
  intros Hs. inversion Hs as [|? ? Hrest Hhd]; subst.
  rewrite (IH Hrest). destruct es as [|x es]; [reflexivity|].
  inversion Hhd; subst. apply insert_below_head. assumption.
Qed.

Section Listings.
Context {RT : Runtime}.

Lemma map_listed_event {V} (select : Venue -> V) st es :
  map listed_event (map (populateEvent select st) es) = es.
Proof.
  induction es as [|e es IH]; simpl; [reflexivity | rewrite IH; reflexivity].
Qed.

(** X17.  [GET /events] is scoped by the caller's role: an organizer is
    listed exactly the events they organize; a venue owner only events at
    venues in their stored venue list; and a caller with any other role is
    listed every event of the store. *)
Theorem listed_events_are_scoped st user :
  (user_role user = "organizer" ->
   exists listing,
     getEvents st user = Next listing
     /\ map listed_event listing
        = List.filter
            (fun e => eqb_id (event_organizer e) (user_id user))
            (events st))
  /\ (user_role user = "venue_owner" ->
      forall listing,
        getEvents st user = Next listing ->
        exists stored,
          findById user_id (users st) (VId (user_id user))
          = Next (Some stored)
          /\ forall l, In l listing ->
               In (listed_event l) (events st)
               /\ In (event_venue (listed_event l)) (user_venues stored))
  /\ (user_role user <> "organizer" -> user_role user <> "venue_owner" ->
      exists listing,
        getEvents st user = Next listing
        /\ map listed_event listing = events st).
Proof.
  unfold getEvents. repeat split.
  - intros ->. simpl. eexists. split; [reflexivity|].
    apply map_listed_event.
  - intros -> listing. simpl. unfold findById. simpl.
    destruct (find _ (users st)) as [stored|]; simpl; [|discriminate].
    destruct (length (user_venues stored) =? 0)%nat; simpl.
    + intros [= <-]. exists stored. split; [reflexivity|]. intros l [].
    + intros [= <-]. exists stored. split; [reflexivity|].
      intros l Hin. apply in_map_iff in Hin. destruct Hin as (e & <- & Hin).
      apply filter_In in Hin. destruct Hin as [Hin Hv]. simpl.
      split; [exact Hin|]. apply includes_In. exact Hv.
  - intros Ho Hv. apply String.eqb_neq in Ho, Hv. rewrite Ho, Hv. simpl.
    eexists. split; [reflexivity|]. rewrite map_listed_event.
    induction (events st) as [|e es IH]; simpl; [reflexivity|].
    rewrite IH. reflexivity.
Qed.

(** What a listing of venue requests holds. *)
Lemma getVenueRequests_listed st user listing :
  getVenueRequests st user = Next listing ->
  exists stored,
    findById user_id (users st) (VId (user_id user)) = Next (Some stored)
    /\ user_role stored = "venue_owner"
    /\ map listed_event listing
       = sortByRequestedAt (map listed_event listing)
    /\ forall l, In l listing ->
         In (listed_event l) (events st)
         /\ vr_status (event_venueRequest (listed_event l)) = Some "pending"
         /\ In (event_venue (listed_event l)) (user_venues stored).
Proof.
  unfold getVenueRequests, findById. simpl.
  destruct (find _ (users st)) as [stored|]; simpl; [|discriminate].
  destruct (String.eqb (user_role stored) "venue_owner") eqn:Hrole; simpl;
    [|discriminate].
  destruct (length (user_venues stored) =? 0)%nat; simpl; [discriminate|].
  intros [= <-]. exists stored. split; [reflexivity|].
  split; [apply String.eqb_eq; exact Hrole|].
  rewrite map_listed_event. split.
  - symmetry. apply sorted_is_fixed. apply sortByRequestedAt_sorted.
  - intros l Hin. apply in_map_iff in Hin. destruct Hin as (e & <- & Hin).
    apply sortByRequestedAt_In, filter_In in Hin. destruct Hin as [Hin Hp].
    apply andb_true_iff in Hp. destruct Hp as [Hp Hv]. simpl.
    split; [exact Hin|]. split; [|apply includes_In; exact Hv].
    destruct (vr_status (event_venueRequest e)) as [s|]; [|discriminate].
    apply String.eqb_eq in Hp. congruence.
Qed.

(** X18.  [GET /event/venue-requests] lists, latest request first, only
    events of the store whose venue request is pending and whose venue is
    in the caller's stored venue list, and the caller is a venue owner. *)
Theorem listed_requests_are_pending_and_owned st user listing :
  getVenueRequests st user = Next listing ->
  exists stored,
    findById user_id (users st) (VId (user_id user)) = Next (Some stored)
    /\ user_role stored = "venue_owner"
    /\ Sorted notEarlier (map listed_event listing)
    /\ forall l, In l listing ->
         In (listed_event l) (events st)
         /\ vr_status (event_venueRequest (listed_event l)) = Some "pending"
         /\ In (event_venue (listed_event l)) (user_venues stored).
Proof.
  intros Hl. destruct (getVenueRequests_listed _ _ _ Hl)
    as (stored & Hs & Hrole & Hsorted & Hall).
  exists stored. repeat split; try assumption.
  - rewrite Hsorted. apply sortByRequestedAt_sorted.
  - apply Hall. assumption.
  - apply Hall. assumption.
  - apply Hall. assumption.
Qed.

(** X19.  A request that has been approved or rejected leaves the list:
    after an accepted decision on the event stored under an id, no listing
    of pending requests, for any caller, shows an event with that event's
    id. *)
Theorem decided_request_leaves_the_list st user id body now action event
  viewer listing :
  findById event_id (events st) (VStr id) = Next (Some event) ->
  status (fst (patchVenueRequest st user id body now)) = 200 ->
  prop body "action" = VStr action ->
  action = "approved" \/ action = "rejected" ->
  getVenueRequests (snd (patchVenueRequest st user id body now)) viewer
  = Next listing ->
  forall l, In l listing -> event_id (listed_event l) <> event_id event.
Proof.
  intros Hf Hok Ha Hact Hlist l Hin Hid.
  destruct (patchVenueRequest_accepted _ _ _ _ _ Hok)
    as (event0 & Hf0 & _ & _ & _ & _ & _ & _ & Heq).
  rewrite Hf in Hf0. injection Hf0 as Hsame. subst event0.
  rewrite Heq in Hlist. simpl in Hlist.
  destruct (getVenueRequests_listed _ _ _ Hlist)
    as (stored & _ & _ & _ & Hall).
  destruct (Hall l Hin) as (Hstored & Hpending & _).
  simpl in Hstored. unfold updateById in Hstored.
  apply in_map_iff in Hstored. destruct Hstored as (x & Hx & _).
  simpl in Hx. unfold eqb_id in Hx.
  destruct (String.eqb (event_id x) (event_id event)) eqn:Hxe.
  - rewrite <- Hx in Hpending. simpl in Hpending. rewrite Ha in Hpending.
    simpl in Hpending. destruct Hact as [-> | ->]; discriminate Hpending.
  - apply String.eqb_neq in Hxe. congruence.
Qed.

End Listings.

(** * Properties of the venue routes *)

Section VenueFlows.
Context {RT : Runtime} {JR : JsonRuntime}.

(** What the owner's switch of a stored, valid venue leaves behind. *)
Lemma putVenueAvailability_switched st user id body venue b :
  findById venue_id (venues st) (VStr id) = Next (Some venue) ->
  venue_owner venue = user_id user ->
  validateVenue venue = true ->
  castBoolean (prop body "availability") = Value b ->
  putVenueAvailability st user id body
  = Some (Next (set_venue_availability venue b,
                set_venues st
                  (updateById venue_id (venues st)
                     (set_venue_availability venue b))))
  /\ findById venue_id
       (updateById venue_id (venues st) (set_venue_availability venue b))
       (VId (venue_id venue))
     = Next (Some (set_venue_availability venue b)).
Proof.
  intros Hf Howner Hvalid Hcast. split.
  - unfold putVenueAvailability. rewrite Hf, Howner, String.eqb_refl, Hcast.
    simpl. unfold saveVenue. simpl.
    change (validateVenue (set_venue_availability venue b))
      with (validateVenue venue).
    rewrite Hvalid. reflexivity.
  - destruct (findById_found _ _ _ _ Hf) as (i & _ & Hfind & Hi).
    unfold eqb_id in Hi. apply String.eqb_eq in Hi. subst i.
    unfold findById. simpl. f_equal.
    apply find_updateById; [apply String.eqb_refl | rewrite Hfind; eauto].
Qed.

(** X21.  [PUT /venues/:id/availability] is the owner's switch: another
    venue owner is answered 403.  When the owner of a stored venue switches
    it off, the venue is stored as unavailable with nothing else changed,
    and from then on every complete creation form for it is answered 400
    "Venue not available" and the hook rejects every save of an event at
    it. *)
Theorem closed_venue_takes_no_bookings st user id body venue :
  findById venue_id (venues st) (VStr id) = Next (Some venue) ->
  (venue_owner venue <> user_id user ->
   putVenueAvailability st user id body
   = Some (Send (json 403 (ErrorJson "Not authorized" None))))
  /\ (venue_owner venue = user_id user ->
      validateVenue venue = true ->
      castBoolean (prop body "availability") = Value false ->
      exists st',
        putVenueAvailability st user id body
        = Some (Next (set_venue_availability venue false, st'))
        /\ users st' = users st /\ events st' = events st
        /\ findById venue_id (venues st') (VStr id)
           = Next (Some (set_venue_availability venue false))
        /\ (forall organizer form files newId now,
              missingFields (buildEventData form files organizer) = [] ->
              prop form "venue" = VStr id ->
              postEvents st' organizer form files newId now
              = (json 400
                   (ErrorJson "Venue not available"
                      (Some (Text "This venue is currently unavailable"))),
                 st'))
        /\ (forall event,
              event_venue event = venue_id venue ->
              preSave st' event = Throw (JsError "Venue is not available"))).
Proof.
  intros Hf. split.
  - intros Hne. unfold putVenueAvailability. rewrite Hf.
    apply String.eqb_neq in Hne. rewrite Hne. reflexivity.
  - intros Howner Hvalid Hcast.
    destruct (putVenueAvailability_switched _ _ _ _ _ _
                Hf Howner Hvalid Hcast) as [Hput Hfound].
    eexists. split; [exact Hput|]. simpl.
    assert (findById venue_id
              (updateById venue_id (venues st)
                 (set_venue_availability venue false)) (VStr id)
            = Next (Some (set_venue_availability venue false))) as Hf'
      by (eapply findById_updateById; [exact Hf | reflexivity]).
    repeat split.
    + exact Hf'.
    + intros organizer form files newId now Hm Hvenue.
      unfold postEvents. rewrite (no_missing_fields_length _ Hm).
      unfold routeBookingChecks. rewrite eventData_venue, Hvenue. simpl.
      rewrite Hf'. reflexivity.
    + intros event Hevent. unfold preSave. rewrite Hevent.
      unfold set_venues. cbn [venues]. rewrite Hfound. reflexivity.
Qed.

End VenueFlows.

Section VenueCreation.
Context {RT : Runtime} {JR : JsonRuntime}.

Lemma venueData_owner body files user :
  prop (buildVenueData body files user) "owner" = VId (user_id user).
Proof. unfold buildVenueData. apply prop_insert_eq. Qed.

Lemma venueData_availability body files user :
  prop (buildVenueData body files user) "availability"
  = VBool (strict_eq_str (prop body "availability") "true"
           || match prop body "availability" with
              | VBool true => true
              | _ => false
              end).
Proof.
  unfold buildVenueData.
  rewrite prop_insert_ne by discriminate.
  destruct files as [[|f fs]|];
    repeat first [ rewrite prop_insert_eq
                 | rewrite prop_insert_ne by discriminate ];
    reflexivity.
Qed.

Lemma venueData_untouched body files user key :
  ~ In key ["capacity"; "pricePerDay"; "availability"; "images"; "owner"] ->
  prop (buildVenueData body files user) key = prop body key.
Proof.
  intros Hkey. simpl in Hkey. unfold buildVenueData.
  rewrite prop_insert_ne by tauto.
  destruct files as [[|f fs]|];
    repeat rewrite prop_insert_ne by tauto; reflexivity.
Qed.

(** The paths of a constructed venue that the form does not set. *)
Lemma newVenue_document venueData amenities id venue owner b :
  newVenue venueData amenities id = Document venue ->
  prop venueData "owner" = VId owner ->
  prop venueData "availability" = VBool b ->
  prop venueData "rating" = VUndef ->
  venue_id venue = id
  /\ venue_owner venue = owner
  /\ venue_availability venue = b
  /\ venue_rating venue = 0%float
  /\ venue_reviews venue = []
  /\ validateVenue venue = true.
Proof.
  intros Hnew Howner Havailable Hrating. unfold newVenue in Hnew.
  rewrite Howner, Havailable, Hrating in Hnew. simpl in Hnew.
  destruct (required (castString (prop venueData "name"))) as [name|];
    simpl in Hnew; [|discriminate].
  destruct (required (castString (prop venueData "address"))) as [address|];
    simpl in Hnew; [|discriminate].
  destruct (required (castNumber (prop venueData "capacity"))) as [capacity|];
    simpl in Hnew; [|discriminate].
  destruct (required (castNumber (prop venueData "pricePerDay")))
    as [pricePerDay|]; simpl in Hnew; [|discriminate].
  destruct amenities as [| |xs]; simpl in Hnew; try discriminate.
  destruct (castStrings (prop venueData "images")) as [images|];
    simpl in Hnew; [|discriminate].
  destruct (optional (castString (prop venueData "description")))
    as [description|]; simpl in Hnew; [|discriminate].
  destruct (nonEmpty name && nonEmpty address) eqn:Hvalid; [|discriminate].
  injection Hnew as <-. simpl. repeat split. exact Hvalid.
Qed.

Lemma find_pushVenueById i venueId coll :
  find (fun u => eqb_id (user_id u) i) (pushVenueById i venueId coll)
  = (fun u => push_user_venue u venueId)
    <$> find (fun u => eqb_id (user_id u) i) coll.
Proof.
  induction coll as [|u coll IH]; simpl; [reflexivity|].
  destruct (eqb_id (user_id u) i) eqn:Hu; simpl; rewrite Hu;
    [reflexivity | exact IH].
Qed.


End VenueCreation.

(** * The further properties at the sample store *)

(** Owner A's token, valid at the time of the request. *)
Lemma auth_resolves_token_subject_witness :
  exists header token payload,
    Some ("Bearer " +:+ Sample.validToken) = Some header
    /\ String.prefix "Bearer " header = true
    /\ nth_error (split_on " " header) 1 = Some token
    /\ jwt_decode token = Some payload
    /\ jwt_signed_with token (jwtSecret Sample.env) = true
    /\ (forall nbf, claim_nbf payload = Seconds nbf ->
                    nbf <= clockTimestamp Sample.now)
    /\ (forall exp, claim_exp payload = Seconds exp ->
                    clockTimestamp Sample.now < exp)
    /\ findById user_id (users Sample.store) (claim_userId payload)
       = Next (Some Sample.ownerA)
    /\ In Sample.ownerA (users Sample.store).
Proof.
  apply (auth_resolves_token_subject (RT := Sample.runtime) Sample.env
           Sample.store (Some ("Bearer " +:+ Sample.validToken)) Sample.now
           Sample.ownerA).
  vm_compute. reflexivity.
Defined.

(** Owner A logs in and opens the profile a second later. *)
Lemma login_token_opens_profile_witness :
  exists stored,
    auth Sample.env Sample.store (Some ("Bearer " +:+ Sample.ashaToken))
      (Sample.now + 1000) = Next stored
    /\ without_password stored = without_password Sample.ownerA
    /\ route_getProfile Sample.env Sample.store
         (Some ("Bearer " +:+ Sample.ashaToken)) (Sample.now + 1000)
       = Next {| profile_name := Some "Asha";
                 profile_email := Some "asha@example.org";
                 profile_id := "64a0000000000000000000a1";
                 profile_role := "venue_owner" |}.
Proof.
  apply (login_token_opens_profile (RT := Sample.runtime) Sample.env
           Sample.store Sample.ashaLogin Sample.now (Sample.now + 1000)
           Sample.ashaToken (without_password Sample.ownerA)).
  - vm_compute. reflexivity.
  - vm_compute. reflexivity.
  - vm_compute. reflexivity.
  - discriminate.
  - vm_compute. reflexivity.
  - simpl. repeat constructor; simpl; intuition discriminate.
  - discriminate.
  - vm_compute. reflexivity.
  - vm_compute. reflexivity.
Defined.

(** Dee's registration leaves four users with four emails. *)
Lemma register_keeps_emails_unique_witness :
  List.NoDup
    (map user_email
       (users (snd (register Sample.env Sample.store Sample.credentials
                      "salt" Sample.newId Sample.now))))
  /\ length (users (snd (register Sample.env Sample.store Sample.credentials
                           "salt" Sample.newId Sample.now))) = 4%nat.
Proof.
  split; [|vm_compute; reflexivity].
  apply (register_keeps_emails_unique (RT := Sample.runtime) Sample.env
           Sample.store Sample.credentials "salt" Sample.newId Sample.now).
  simpl. repeat constructor; simpl; intuition discriminate.
Defined.

(** An unknown email and a wrong password for owner A's account. *)
Lemma login_does_not_reveal_accounts_witness :
  login Sample.env Sample.store Sample.credentials Sample.now
  = (json 401 (ErrorJson "Invalid credentials" None), Sample.store)
  /\ login Sample.env Sample.store Sample.ashaGuess Sample.now
     = (json 401 (ErrorJson "Invalid credentials" None), Sample.store).
Proof.
  split.
  - apply (proj1 (login_does_not_reveal_accounts (RT := Sample.runtime)
                    Sample.env Sample.store Sample.credentials Sample.now
                    "dee@example.org" "pw" eq_refl ltac:(discriminate)
                    eq_refl ltac:(discriminate))).
    vm_compute. reflexivity.
  - apply (proj2 (login_does_not_reveal_accounts (RT := Sample.runtime)
                    Sample.env Sample.store Sample.ashaGuess Sample.now
                    "asha@example.org" "b" eq_refl ltac:(discriminate)
                    eq_refl ltac:(discriminate))
             Sample.ownerA "hash(a)").
    + vm_compute. reflexivity.
    + reflexivity.
    + vm_compute. reflexivity.
Defined.

(** The sample form carries only fields of the creation form. *)
Lemma form_is_creation_form k :
  is_Some (Sample.form !! k) -> In k creationForm.
Proof.
  intros [v Hk]. unfold Sample.form in Hk.
  apply elem_of_list_to_map_2 in Hk.
  repeat (apply elem_of_cons in Hk; destruct Hk as [Hk | Hk];
          [injection Hk as -> _; simpl; tauto|]).
  apply elem_of_nil in Hk. contradiction.
Defined.

(** The launch at the hall, as the organizer's form creates it. *)
Lemma created_event_is_pending_and_fits_witness :
  exists e,
    fst (postEvents Sample.store Sample.organizer Sample.form None
           Sample.newId Sample.now) = json 201 (EventJson e)
    /\ event_id e = Sample.newId
    /\ event_organizer e = user_id Sample.organizer
    /\ event_status e = Some "pending"
    /\ event_attendees e = [] /\ event_reviews e = []
    /\ validateEvent e = true
    /\ exists venue,
        findById venue_id (venues Sample.store) (VId (event_venue e))
        = Next (Some venue)
        /\ venue_availability venue = true
        /\ js_gt (event_expectedAttendees e) (venue_capacity venue) = false.
Proof.
  eexists. split; [vm_compute; reflexivity|].
  match goal with
  | |- event_id ?e = _ /\ _ =>
      destruct (created_event_is_pending_and_fits (RT := Sample.runtime)
                  Sample.store Sample.organizer Sample.form None
                  Sample.newId Sample.now e form_is_creation_form)
        as (Hid & Horg & Hstatus & _ & Hatt & Hrev & Hvalid & _ & Hvenue);
        [vm_compute; reflexivity|]
  end.
  repeat split; assumption.
Defined.


(** The free event: its price of 0 is reported as missing. *)
Lemma zero_or_non_numeric_is_missing_witness :
  In "price"
     (missingFields (buildEventData Sample.freeForm None Sample.organizer))
  /\ snd (postEvents Sample.store Sample.organizer Sample.freeForm None
            Sample.newId Sample.now) = Sample.store.
Proof.
  destruct (zero_or_non_numeric_is_missing (RT := Sample.runtime)
              Sample.store Sample.organizer Sample.freeForm None
              Sample.newId Sample.now "price")
    as [Hin Hanswer].
  - simpl. tauto.
  - vm_compute. reflexivity.
  - split; [exact Hin|]. rewrite Hanswer. reflexivity.
Defined.

(** The store without the event at the loft is consistent, and stays so
    when the launch is created and when owner A approves the gala. *)
Lemma event_routes_keep_store_consistent_witness :
  consistent Sample.openStore
  /\ consistent
       (snd (postEvents Sample.openStore Sample.organizer Sample.form None
               Sample.newId Sample.now))
  /\ consistent
       (snd (patchVenueRequest Sample.openStore Sample.ownerA
               "64c0000000000000000000c1" Sample.decision Sample.now))
  /\ length (events (snd (postEvents Sample.openStore Sample.organizer
                            Sample.form None Sample.newId Sample.now)))
     = 2%nat.
Proof.
  assert (consistent (RT := Sample.runtime) Sample.openStore) as Hc.
  { unfold consistent. simpl. constructor; [|constructor].
    split; vm_compute; reflexivity. }
  destruct (event_routes_keep_store_consistent (RT := Sample.runtime)
              Sample.openStore Sample.ownerA "64c0000000000000000000c1"
              Sample.decision None Sample.newId Sample.now Hc)
    as (_ & _ & _ & Hpatch).
  destruct (event_routes_keep_store_consistent (RT := Sample.runtime)
              Sample.openStore Sample.organizer "64c0000000000000000000c1"
              Sample.form None Sample.newId Sample.now Hc)
    as (Hpost & _).
  split; [exact Hc|]. split; [exact Hpost|]. split; [exact Hpatch|].
  vm_compute. reflexivity.
Defined.


(** Owner A approves the gala and then rejects it. *)
Lemma decision_can_be_repeated_witness :
  exists event2,
    fst (patchVenueRequest
           (snd (patchVenueRequest Sample.store Sample.ownerA
                   "64c0000000000000000000c1" Sample.decision Sample.now))
           Sample.ownerA "64c0000000000000000000c1" Sample.refusal
           (Sample.now + 1000))
    = json 200 (SuccessEventJson event2)
    /\ vr_status (event_venueRequest event2) = Some "rejected"
    /\ vr_response (event_venueRequest event2) = Some "sorry"
    /\ vr_respondedAt (event_venueRequest event2) = Some (Sample.now + 1000)
    /\ event_status event2 = Some "rejected".
Proof.
  destruct (decision_can_be_repeated (RT := Sample.runtime) Sample.store
              Sample.ownerA "64c0000000000000000000c1" Sample.decision
              Sample.now Sample.refusal (Sample.now + 1000)
              "rejected" "sorry")
    as (event2 & Hanswer & _ & Hs & Hr & Ht & He).
  - vm_compute. reflexivity.
  - vm_compute. reflexivity.
  - right. reflexivity.
  - vm_compute. reflexivity.
  - exists event2. repeat split; assumption.
Defined.



(** A decision with the action [pending] rejects the event. *)
Lemma decision_outcome_witness :
  exists event',
    fst (patchVenueRequest Sample.store Sample.ownerA
           "64c0000000000000000000c1"
           (<["action" := VStr "pending"]> Sample.decision) Sample.now)
    = json 200 (SuccessEventJson event')
    /\ event_status event' = Some "rejected"
    /\ vr_status (event_venueRequest event') = Some "pending".
Proof.
  destruct (decision_outcome (RT := Sample.runtime) Sample.store
              Sample.ownerA "64c0000000000000000000c1"
              (<["action" := VStr "pending"]> Sample.decision) Sample.now)
    as (event' & Hanswer & _ & Hrejected & _).
  - vm_compute. reflexivity.
  - exists event'. split; [exact Hanswer|]. split.
    + apply Hrejected. vm_compute. discriminate.
    + vm_compute in Hanswer. injection Hanswer as <-. reflexivity.
Defined.

(** The organizer is listed both galas, owner A the one at the hall. *)
Lemma listed_events_are_scoped_witness :
  (exists listing,
     getEvents Sample.store Sample.organizer = Next listing
     /\ map listed_event listing = events Sample.store)
  /\ exists listing,
      getEvents Sample.store Sample.ownerA = Next listing
      /\ forall l, In l listing ->
           event_venue (listed_event l) = "64b0000000000000000000b1".
Proof.
  split.
  - destruct (proj1 (listed_events_are_scoped (RT := Sample.runtime)
                       Sample.store Sample.organizer) eq_refl)
      as (listing & Hl & Hmap).
    exists listing. split; [exact Hl|]. rewrite Hmap. reflexivity.
  - eexists. split; [vm_compute; reflexivity|].
    intros l Hin.
    destruct (proj1 (proj2 (listed_events_are_scoped (RT := Sample.runtime)
                              Sample.store Sample.ownerA))
                eq_refl _ eq_refl)
      as (stored & Hstored & Hall).
    vm_compute in Hstored. injection Hstored as <-.
    destruct (Hall l Hin) as [_ [Hv | []]]. symmetry. exact Hv.
Defined.

(** Owner A's pending requests: the gala at the hall. *)
Lemma listed_requests_are_pending_and_owned_witness :
  exists listing,
    getVenueRequests Sample.store Sample.ownerA = Next listing
    /\ map (fun l => event_id (listed_event l)) listing
       = ["64c0000000000000000000c1"]
    /\ forall l, In l listing ->
         vr_status (event_venueRequest (listed_event l)) = Some "pending".
Proof.
  eexists. split; [vm_compute; reflexivity|].
  split; [reflexivity|]. intros l Hin.
  destruct (listed_requests_are_pending_and_owned (RT := Sample.runtime)
              Sample.store Sample.ownerA _ eq_refl)
    as (stored & _ & _ & _ & Hall).
  apply (Hall l Hin).
Defined.

(** Once owner A has approved the gala, the list of requests is empty. *)
Lemma decided_request_leaves_the_list_witness :
  exists listing,
    getVenueRequests
      (snd (patchVenueRequest Sample.store Sample.ownerA
              "64c0000000000000000000c1" Sample.decision Sample.now))
      Sample.ownerA = Next listing
    /\ forall l, In l listing ->
         event_id (listed_event l) <> "64c0000000000000000000c1".
Proof.
  eexists. split; [vm_compute; reflexivity|].
  apply (decided_request_leaves_the_list (RT := Sample.runtime) Sample.store
           Sample.ownerA "64c0000000000000000000c1" Sample.decision
           Sample.now "approved"
           (Sample.gala "64c0000000000000000000c1"
              "64b0000000000000000000b1")
           Sample.ownerA).
  - vm_compute. reflexivity.
  - vm_compute. reflexivity.
  - vm_compute. reflexivity.
  - left. reflexivity.
  - vm_compute. reflexivity.
Defined.

(** The form without a title: the title is named, whatever the store. *)
Lemma missing_fields_reported_witness :
  In "title"
     (missingFields
        (buildEventData Sample.freeForm None Sample.organizer))
  /\ postEvents Sample.store Sample.organizer Sample.freeForm None
       Sample.newId Sample.now
     = (json 400
          (ErrorJson "Missing required fields"
             (Some (Text
               ("Please fill in the following fields: "
                +:+ String.concat ", "
                      (missingFields
                         (buildEventData Sample.freeForm None
                            Sample.organizer)))))),
        Sample.store).
Proof.
  apply (missing_fields_reported (RT := Sample.runtime) Sample.store
           Sample.organizer Sample.freeForm None Sample.newId Sample.now
           "title").
  - simpl. tauto.
  - vm_compute. reflexivity.
  - discriminate.
  - discriminate.
Defined.

(** Owner B may not close owner A's hall; owner A closes it, and the
    sample form for the hall is refused from then on. *)
Lemma closed_venue_takes_no_bookings_witness :
  putVenueAvailability Sample.store Sample.ownerB "64b0000000000000000000b1"
    Sample.closing
  = Some (Send (json 403 (ErrorJson "Not authorized" None)))
  /\ exists st',
      putVenueAvailability Sample.store Sample.ownerA
        "64b0000000000000000000b1" Sample.closing
      = Some (Next (set_venue_availability Sample.hall false, st'))
      /\ postEvents st' Sample.organizer Sample.form None Sample.newId
           Sample.now
         = (json 400
              (ErrorJson "Venue not available"
                 (Some (Text "This venue is currently unavailable"))),
            st')
      /\ preSave st'
           (Sample.gala "64c0000000000000000000c1"
              "64b0000000000000000000b1")
         = Throw (JsError "Venue is not available").
Proof.
  split.
  - apply (proj1 (closed_venue_takes_no_bookings (RT := Sample.runtime)
                    Sample.store Sample.ownerB "64b0000000000000000000b1"
                    Sample.closing Sample.hall
                    ltac:(vm_compute; reflexivity))).
    discriminate.
  - destruct (proj2 (closed_venue_takes_no_bookings (RT := Sample.runtime)
                       Sample.store Sample.ownerA
                       "64b0000000000000000000b1" Sample.closing Sample.hall
                       ltac:(vm_compute; reflexivity)))
      as (st' & Hput & _ & _ & _ & Hform & Hhook).
    + reflexivity.
    + reflexivity.
    + vm_compute. reflexivity.
    + exists st'. split; [exact Hput|]. split.
      * apply Hform; vm_compute; reflexivity.
      * apply Hhook. reflexivity.
Defined.

(** The sample venue form carries only fields of the venue form. *)
Lemma barn_is_venue_form k :
  is_Some (Sample.barnForm !! k) -> In k venueForm.
Proof.
  intros [v Hk]. unfold Sample.barnForm in Hk.
  apply elem_of_list_to_map_2 in Hk.
  repeat (apply elem_of_cons in Hk; destruct Hk as [Hk | Hk];
          [injection Hk as -> _; simpl; tauto|]).
  apply elem_of_nil in Hk. contradiction.
Defined.

